(** * OCR web application: frontend model

    A shallow embedding of the TypeScript frontend of the OCR web
    application (types, API client, [useOCR] hook, [App.handleUpload],
    [OCRResult] view, [FileUpload] widget and [History] view), followed by
    the properties proved about it.

    Conventions.
    - A TypeScript [interface] is embedded twice: as a Rocq [Record] (used by
      the hook and the views) and as a [TsType] descriptor (used to talk
      about the JSON bodies exchanged with the server).  [conforms] decides
      whether a JSON value inhabits a descriptor, and the [json_of_*]
      encoders relate the two embeddings.
    - [T | null] is [option T]; an optional member [f?: T] is [option T] as
      well, [None] standing for an absent member.
    - React state is an explicit record; every handler is a function on it.
      An [async] function is split at its [await] into the synchronous
      prefix and the continuation run when the promise settles. *)

From Stdlib Require Import String Ascii List ZArith QArith Bool Lia DecimalString.
Import ListNotations.
Open Scope string_scope.
Open Scope Z_scope.
Set Warnings "-register-all".

(* ================================================================== *)
(** * JavaScript values used by the frontend *)
(* ================================================================== *)

(** JSON [number]s carried around but never computed with (confidences,
    bounding boxes) are rationals. *)
Definition number : Type := Q.

(** The line feed character of the JS escape [\n]. *)
Definition LF : string := String (ascii_of_nat 10) EmptyString.

(** Truthiness of a [string | null] value: [null] and the empty string are
    falsy, every other string is truthy. *)
Definition truthy (s : option string) : bool :=
  match s with
  | None => false
  | Some EmptyString => false
  | Some (String _ _) => true
  end.

(** [a || b] where [a : string | null] and [b : string]. *)
Definition or_else (a : option string) (b : string) : string :=
  match a with
  | Some (String c r) => String c r
  | _ => b
  end.

(** Parsed JSON, as [response.data] holds it. *)
Inductive Json : Type :=
| JNull
| JBool (b : bool)
| JNum (n : number)
| JStr (s : string)
| JArr (items : list Json)
| JObj (members : list (string * Json)).

(** Member access [o.k] on a parsed object: the first member named [k]. *)
Fixpoint lookup (k : string) (members : list (string * Json)) : option Json :=
  match members with
  | [] => None
  | (k', v) :: rest => if String.eqb k k' then Some v else lookup k rest
  end.

Definition member (k : string) (j : Json) : option Json :=
  match j with
  | JObj members => lookup k members
  | _ => None
  end.

Definition keys (j : Json) : list string :=
  match j with
  | JObj members => map fst members
  | _ => []
  end.

(* ================================================================== *)
(** * Type descriptors (the declarations of [frontend/src/types]) *)
(* ================================================================== *)

Record Field (T : Type) : Type := mkField {
  fname : string;
  optional : bool;      (* declared with [?] *)
  ftype : T
}.
Arguments mkField {T} _ _ _.
Arguments fname {T} _.
Arguments optional {T} _.
Arguments ftype {T} _.

Inductive TsType : Type :=
| TString
| TNumber
| TNull
| TUnknown
| TLiteral (s : string)                    (* a string literal type *)
| TUnion (alts : list TsType)              (* [A | B | ...] *)
| TArray (elt : TsType)                    (* [T[]] *)
| TDict (value : TsType)                   (* [Record<string, T>] *)
| TObject (fields : list (Field TsType)).  (* an [interface] body *)

Definition required (n : string) (t : TsType) : Field TsType := mkField n false t.
Definition optionally (n : string) (t : TsType) : Field TsType := mkField n true t.
Definition nullable (t : TsType) : TsType := TUnion [t; TNull].

(** Does the parsed JSON value [j] inhabit the type [t]? *)
Fixpoint conforms (t : TsType) (j : Json) {struct t} : bool :=
  match t with
  | TString => match j with JStr _ => true | _ => false end
  | TNumber => match j with JNum _ => true | _ => false end
  | TNull => match j with JNull => true | _ => false end
  | TUnknown => true
  | TLiteral s => match j with JStr s' => String.eqb s s' | _ => false end
  | TUnion alts =>
      (fix any (ts : list TsType) : bool :=
         match ts with
         | [] => false
         | a :: rest => conforms a j || any rest
         end) alts
  | TArray elt =>
      match j with
      | JArr items => forallb (conforms elt) items
      | _ => false
      end
  | TDict value =>
      match j with
      | JObj members => forallb (fun kv => conforms value (snd kv)) members
      | _ => false
      end
  | TObject fields =>
      match j with
      | JObj members =>
          (fix all (fs : list (Field TsType)) : bool :=
             match fs with
             | [] => true
             | f :: rest =>
                 match lookup (fname f) members with
                 | Some v => conforms (ftype f) v
                 | None => optional f
                 end && all rest
             end) fields
      | _ => false
      end
  end.

Definition fields_of (t : TsType) : list (Field TsType) :=
  match t with
  | TObject fields => fields
  | _ => []
  end.

Definition field_names (t : TsType) : list string := map fname (fields_of t).

Definition field (n : string) (t : TsType) : option (Field TsType) :=
  find (fun f => String.eqb n (fname f)) (fields_of t).

Definition field_type (n : string) (t : TsType) : option TsType :=
  option_map ftype (field n t).

(** [t] admits [null]. *)
Definition admits_null (t : TsType) : bool := conforms t JNull.

(** ** The declarations, in source order *)

Module Schema.

(** [export type ProcessingStatus = 'pending' | 'processing' | 'completed' | 'failed'] *)
Definition ProcessingStatus : TsType :=
  TUnion [TLiteral "pending"; TLiteral "processing";
          TLiteral "completed"; TLiteral "failed"].

Definition OCRBlock : TsType :=
  TObject [required "text" TString;
           required "confidence" TNumber;
           required "bbox" (TArray TNumber);
           optionally "page" TNumber].

Definition OCRResult : TsType :=
  TObject [required "text" TString;
           required "blocks" (TArray OCRBlock);
           required "markdown" (nullable TString)].

Definition OCRResultResponse : TsType :=
  TObject [required "id" TString;
           required "filename" TString;
           required "file_type" TString;
           required "created_at" TString;
           required "processing_time" (nullable TString);
           required "status" ProcessingStatus;
           required "ocr_result" (nullable OCRResult);
           required "error_message" (nullable TString)].

Definition HistoryListItem : TsType :=
  TObject [required "id" TString;
           required "filename" TString;
           required "file_type" TString;
           required "created_at" TString;
           required "status" ProcessingStatus;
           required "page_count" (nullable TString)].

Definition HistoryListResponse : TsType :=
  TObject [required "items" (TArray HistoryListItem);
           required "total" TNumber;
           required "page" TNumber;
           required "page_size" TNumber].

Definition StructureBlock : TsType :=
  TObject [required "type" TString;
           required "content" TString;
           required "bbox" (TArray TNumber);
           required "confidence" TNumber].

Definition StructureResult : TsType :=
  TObject [required "blocks" (TArray StructureBlock);
           required "markdown" TString;
           required "tables" (TArray (TDict TUnknown))].

Definition StructureResultResponse : TsType :=
  TObject [required "id" TString;
           required "filename" TString;
           required "created_at" TString;
           required "processing_time" (nullable TString);
           required "status" ProcessingStatus;
           required "structure_result" (nullable StructureResult);
           required "error_message" (nullable TString)].

End Schema.

(* ================================================================== *)
(** * The same declarations as records *)
(* ================================================================== *)

Inductive ProcessingStatus : Type := pending | processing | completed | failed.

Definition status_literal (s : ProcessingStatus) : string :=
  match s with
  | pending => "pending"
  | processing => "processing"
  | completed => "completed"
  | failed => "failed"
  end.

Definition ProcessingStatus_eqb (a b : ProcessingStatus) : bool :=
  match a, b with
  | pending, pending | processing, processing
  | completed, completed | failed, failed => true
  | _, _ => false
  end.

Module OCRBlock.
Record t : Type := mk {
  text : string;
  confidence : number;
  bbox : list number;
  page : option number
}.
End OCRBlock.

Module OCRResult.
Record t : Type := mk {
  text : string;
  blocks : list OCRBlock.t;
  markdown : option string
}.
End OCRResult.

Module OCRResultResponse.
Record t : Type := mk {
  id : string;
  filename : string;
  file_type : string;
  created_at : string;
  processing_time : option string;
  status : ProcessingStatus;
  ocr_result : option OCRResult.t;
  error_message : option string
}.
End OCRResultResponse.

Module HistoryListItem.
Record t : Type := mk {
  id : string;
  filename : string;
  file_type : string;
  created_at : string;
  status : ProcessingStatus;
  page_count : option string
}.
End HistoryListItem.

(** [total], [page] and [page_size] are counts: integers, far below the
    range where JS arithmetic on them stops being exact. *)
Module HistoryListResponse.
Record t : Type := mk {
  items : list HistoryListItem.t;
  total : Z;
  page : Z;
  page_size : Z
}.
End HistoryListResponse.

Module StructureBlock.
Record t : Type := mk {
  type : string;
  content : string;
  bbox : list number;
  confidence : number
}.
End StructureBlock.

Module StructureResult.
Record t : Type := mk {
  blocks : list StructureBlock.t;
  markdown : string;
  tables : list (list (string * Json))
}.
End StructureResult.

Module StructureResultResponse.
Record t : Type := mk {
  id : string;
  filename : string;
  created_at : string;
  processing_time : option string;
  status : ProcessingStatus;
  structure_result : option StructureResult.t;
  error_message : option string
}.
End StructureResultResponse.

(** ** The JSON body a record value stands for *)

Definition json_of_nullable {A : Type} (enc : A -> Json) (v : option A) : Json :=
  match v with
  | Some a => enc a
  | None => JNull
  end.

(** An optional member is left out of the object when absent. *)
Definition json_of_optional {A : Type} (k : string) (enc : A -> Json) (v : option A)
  : list (string * Json) :=
  match v with
  | Some a => [(k, enc a)]
  | None => []
  end.

Definition json_of_status (s : ProcessingStatus) : Json := JStr (status_literal s).

Definition json_of_OCRBlock (b : OCRBlock.t) : Json :=
  JObj ([("text", JStr (OCRBlock.text b));
         ("confidence", JNum (OCRBlock.confidence b));
         ("bbox", JArr (map JNum (OCRBlock.bbox b)))]
        ++ json_of_optional "page" JNum (OCRBlock.page b)).

Definition json_of_OCRResult (r : OCRResult.t) : Json :=
  JObj [("text", JStr (OCRResult.text r));
        ("blocks", JArr (map json_of_OCRBlock (OCRResult.blocks r)));
        ("markdown", json_of_nullable JStr (OCRResult.markdown r))].

Definition json_of_OCRResultResponse (r : OCRResultResponse.t) : Json :=
  JObj [("id", JStr (OCRResultResponse.id r));
        ("filename", JStr (OCRResultResponse.filename r));
        ("file_type", JStr (OCRResultResponse.file_type r));
        ("created_at", JStr (OCRResultResponse.created_at r));
        ("processing_time", json_of_nullable JStr (OCRResultResponse.processing_time r));
        ("status", json_of_status (OCRResultResponse.status r));
        ("ocr_result", json_of_nullable json_of_OCRResult (OCRResultResponse.ocr_result r));
        ("error_message", json_of_nullable JStr (OCRResultResponse.error_message r))].

Definition json_of_HistoryListItem (i : HistoryListItem.t) : Json :=
  JObj [("id", JStr (HistoryListItem.id i));
        ("filename", JStr (HistoryListItem.filename i));
        ("file_type", JStr (HistoryListItem.file_type i));
        ("created_at", JStr (HistoryListItem.created_at i));
        ("status", json_of_status (HistoryListItem.status i));
        ("page_count", json_of_nullable JStr (HistoryListItem.page_count i))].

Definition json_of_StructureBlock (b : StructureBlock.t) : Json :=
  JObj [("type", JStr (StructureBlock.type b));
        ("content", JStr (StructureBlock.content b));
        ("bbox", JArr (map JNum (StructureBlock.bbox b)));
        ("confidence", JNum (StructureBlock.confidence b))].

Definition json_of_StructureResult (r : StructureResult.t) : Json :=
  JObj [("blocks", JArr (map json_of_StructureBlock (StructureResult.blocks r)));
        ("markdown", JStr (StructureResult.markdown r));
        ("tables", JArr (map JObj (StructureResult.tables r)))].

Definition json_of_StructureResultResponse (r : StructureResultResponse.t) : Json :=
  JObj [("id", JStr (StructureResultResponse.id r));
        ("filename", JStr (StructureResultResponse.filename r));
        ("created_at", JStr (StructureResultResponse.created_at r));
        ("processing_time", json_of_nullable JStr (StructureResultResponse.processing_time r));
        ("status", json_of_status (StructureResultResponse.status r));
        ("structure_result",
          json_of_nullable json_of_StructureResult (StructureResultResponse.structure_result r));
        ("error_message", json_of_nullable JStr (StructureResultResponse.error_message r))].

(* ================================================================== *)
(** * Browser values: files and numbers *)
(* ================================================================== *)

(** A DOM [File]: its name, its MIME type and its size in bytes. *)
Module File.
Record t : Type := mk {
  name : string;
  type : string;
  size : N
}.

Definition eqb (a b : t) : bool :=
  String.eqb (name a) (name b) && String.eqb (type a) (type b) && N.eqb (size a) (size b).
End File.

(** A JS number that started as an integer: the [History] view divides two
    counts, so the three non-finite values can appear as well. *)
Inductive JsNum : Type :=
| Fin (z : Z)
| Infinity
| NegInfinity
| NaN.

Definition Z_toString (z : Z) : string := NilZero.string_of_int (Z.to_int z).

(** [Number.prototype.toString] *)
Definition toString (n : JsNum) : string :=
  match n with
  | Fin z => Z_toString z
  | Infinity => "Infinity"
  | NegInfinity => "-Infinity"
  | NaN => "NaN"
  end.

(** [a > b] with [b] finite *)
Definition gt (a : JsNum) (b : Z) : bool :=
  match a with
  | Fin z => b <? z
  | Infinity => true
  | NegInfinity | NaN => false
  end.

(** [a === b] on numbers; [NaN] equals nothing. *)
Definition strict_eq (a b : JsNum) : bool :=
  match a, b with
  | Fin x, Fin y => x =? y
  | Infinity, Infinity => true
  | NegInfinity, NegInfinity => true
  | _, _ => false
  end.

(** [a + k] and [a - k] for a finite [k] *)
Definition plus (a : JsNum) (k : Z) : JsNum :=
  match a with
  | Fin z => Fin (z + k)
  | other => other
  end.

(** [Math.max(a, b)] and [Math.min(a, b)]; [NaN] is contagious. *)
Definition Math_max (a b : JsNum) : JsNum :=
  match a, b with
  | NaN, _ | _, NaN => NaN
  | Infinity, _ | _, Infinity => Infinity
  | NegInfinity, other | other, NegInfinity => other
  | Fin x, Fin y => Fin (Z.max x y)
  end.

Definition Math_min (a b : JsNum) : JsNum :=
  match a, b with
  | NaN, _ | _, NaN => NaN
  | NegInfinity, _ | _, NegInfinity => NegInfinity
  | Infinity, other | other, Infinity => other
  | Fin x, Fin y => Fin (Z.min x y)
  end.

(** The ceiling of the exact quotient [a / b], [b] non-zero. *)
Definition ceil_div (a b : Z) : Z := - ((- a) / b).

(** [Math.ceil(a / b)] for two integer-valued numbers: division by zero
    gives an infinity, or [NaN] for [0 / 0]. *)
Definition Math_ceil_div (a b : Z) : JsNum :=
  if b =? 0 then
    if a =? 0 then NaN else if 0 <? a then Infinity else NegInfinity
  else Fin (ceil_div a b).

(* ================================================================== *)
(** * services/api.ts *)
(* ================================================================== *)

Inductive Method : Type := GET | POST | DELETE.

(** One call on the axios instance.  [url] is the instance's [baseURL]
    followed by the path of the call; [query] is the entry list of the
    [URLSearchParams] appended after [?]; [timeout] is in milliseconds,
    [None] when the call sets none. *)
Record Request : Type := mkRequest {
  method : Method;
  url : string;
  query : list (string * string);
  form : list (string * File.t);
  content_type : string;
  timeout : option Z
}.

Definition baseURL : string := "/api".

Module ocrApi.

Definition processImage (file : File.t) : Request :=
  mkRequest POST (baseURL ++ "/ocr/image") [] [("file", file)] "multipart/form-data" None.

Definition processPdf (file : File.t) : Request :=
  mkRequest POST (baseURL ++ "/ocr/pdf") [] [("file", file)] "multipart/form-data"
            (Some 300000).

Definition analyzeStructure (file : File.t) : Request :=
  mkRequest POST (baseURL ++ "/ocr/structure") [] [("file", file)] "multipart/form-data"
            None.

Definition getResult (id : string) : Request :=
  mkRequest GET (baseURL ++ "/ocr/result/" ++ id) [] [] "application/json" None.

(** The declared result type of each member ([Promise<...>]). *)
Inductive member : Type := m_processImage | m_processPdf | m_analyzeStructure | m_getResult.

Definition result_type (m : member) : TsType :=
  match m with
  | m_processImage => Schema.OCRResultResponse
  | m_processPdf => Schema.OCRResultResponse
  | m_analyzeStructure => Schema.StructureResultResponse
  | m_getResult => Schema.OCRResultResponse
  end.

End ocrApi.

Module historyApi.

(** [list(page = 1, pageSize = 20, status?)]: an argument left out is
    [None]. *)
Definition list (page pageSize : option JsNum) (status : option string) : Request :=
  let page := match page with Some p => p | None => Fin 1 end in
  let pageSize := match pageSize with Some p => p | None => Fin 20 end in
  let params := [("page", toString page); ("page_size", toString pageSize)] in
  let params :=
    if truthy status then (params ++ [("status", or_else status "")])%list else params in
  mkRequest GET (baseURL ++ "/history") params [] "application/json" None.

Definition getDetail (id : string) : Request :=
  mkRequest GET (baseURL ++ "/history/" ++ id) [] [] "application/json" None.

Definition delete (id : string) : Request :=
  mkRequest DELETE (baseURL ++ "/history/" ++ id) [] [] "application/json" None.

Definition deleteAll : Request :=
  mkRequest DELETE (baseURL ++ "/history") [] [] "application/json" None.

End historyApi.

(** ** How an awaited axios call ends *)

(** What the server (or the network) did with a request. *)
Inductive Transport (A : Type) : Type :=
| Ok2xx (data : A)          (* a success status with a JSON body *)
| BadStatus (code : Z)      (* any other status code *)
| NetworkError.
Arguments Ok2xx {A} _.
Arguments BadStatus {A} _.
Arguments NetworkError {A}.

(** What a [catch] clause receives. *)
Inductive Thrown : Type :=
| ErrorObject (message : string)   (* [err instanceof Error] *)
| OtherValue.

Inductive Settled (A : Type) : Type :=
| Fulfilled (data : A)
| Rejected (err : Thrown).
Arguments Fulfilled {A} _.
Arguments Rejected {A} _.

(** axios resolves with the body on a success status and rejects with an
    [AxiosError] (an [Error]) otherwise. *)
Definition axios_settle {A : Type} (t : Transport A) : Settled A :=
  match t with
  | Ok2xx data => Fulfilled data
  | BadStatus code =>
      Rejected (ErrorObject ("Request failed with status code " ++ Z_toString code))
  | NetworkError => Rejected (ErrorObject "Network Error")
  end.

(* ================================================================== *)
(** * hooks/useOCR.ts *)
(* ================================================================== *)

Module useOCR.

Record State : Type := mk {
  isLoading : bool;
  error : option string;
  result : option OCRResultResponse.t;
  structureResult : option StructureResultResponse.t
}.

(** The four [useState] initial values. *)
Definition initial : State := mk false None None None.

Definition setIsLoading (v : bool) (s : State) : State :=
  mk v (error s) (result s) (structureResult s).
Definition setError (v : option string) (s : State) : State :=
  mk (isLoading s) v (result s) (structureResult s).
Definition setResult (v : option OCRResultResponse.t) (s : State) : State :=
  mk (isLoading s) (error s) v (structureResult s).
Definition setStructureResult (v : option StructureResultResponse.t) (s : State) : State :=
  mk (isLoading s) (error s) (result s) v.

(** [err instanceof Error ? err.message : fallback] *)
Definition message_of (err : Thrown) (fallback : string) : string :=
  match err with
  | ErrorObject message => message
  | OtherValue => fallback
  end.

(** Each operation is given as the part run by the call itself, up to the
    [await] (it returns the request handed to axios), and the part run
    once the awaited promise has settled ([try]/[catch]/[finally]). *)

Definition processImage (file : File.t) (s : State) : State * Request :=
  let s := setIsLoading true s in
  let s := setError None s in
  let s := setResult None s in
  let s := setStructureResult None s in
  (s, ocrApi.processImage file).

Definition processImage_then (out : Settled OCRResultResponse.t) (s : State) : State :=
  let s :=
    match out with
    | Fulfilled response => setResult (Some response) s
    | Rejected err => setError (Some (message_of err "Failed to process image")) s
    end in
  setIsLoading false s.

Definition processPdf (file : File.t) (s : State) : State * Request :=
  let s := setIsLoading true s in
  let s := setError None s in
  let s := setResult None s in
  let s := setStructureResult None s in
  (s, ocrApi.processPdf file).

Definition processPdf_then (out : Settled OCRResultResponse.t) (s : State) : State :=
  let s :=
    match out with
    | Fulfilled response => setResult (Some response) s
    | Rejected err => setError (Some (message_of err "Failed to process PDF")) s
    end in
  setIsLoading false s.

Definition analyzeStructure (file : File.t) (s : State) : State * Request :=
  let s := setIsLoading true s in
  let s := setError None s in
  let s := setResult None s in
  let s := setStructureResult None s in
  (s, ocrApi.analyzeStructure file).

Definition analyzeStructure_then (out : Settled StructureResultResponse.t) (s : State)
  : State :=
  let s :=
    match out with
    | Fulfilled response => setStructureResult (Some response) s
    | Rejected err => setError (Some (message_of err "Failed to analyze structure")) s
    end in
  setIsLoading false s.

Definition loadFromHistory (id : string) (s : State) : State * Request :=
  let s := setIsLoading true s in
  let s := setError None s in
  let s := setResult None s in
  let s := setStructureResult None s in
  (s, ocrApi.getResult id).

Definition loadFromHistory_then (out : Settled OCRResultResponse.t) (s : State) : State :=
  let s :=
    match out with
    | Fulfilled response => setResult (Some response) s
    | Rejected err => setError (Some (message_of err "Failed to load history")) s
    end in
  setIsLoading false s.

Definition reset (s : State) : State :=
  let s := setIsLoading false s in
  let s := setError None s in
  let s := setResult None s in
  setStructureResult None s.

(** A call of one of the four operations. *)
Inductive Operation : Type :=
| ProcessImage (file : File.t)
| ProcessPdf (file : File.t)
| AnalyzeStructure (file : File.t)
| LoadFromHistory (id : string).

Definition Operation_eqb (a b : Operation) : bool :=
  match a, b with
  | ProcessImage f, ProcessImage g => File.eqb f g
  | ProcessPdf f, ProcessPdf g => File.eqb f g
  | AnalyzeStructure f, AnalyzeStructure g => File.eqb f g
  | LoadFromHistory i, LoadFromHistory j => String.eqb i j
  | _, _ => false
  end.

Definition call (o : Operation) (s : State) : State * Request :=
  match o with
  | ProcessImage file => processImage file s
  | ProcessPdf file => processPdf file s
  | AnalyzeStructure file => analyzeStructure file s
  | LoadFromHistory id => loadFromHistory id s
  end.

(** What the awaited call of an operation settles with: the three flat-OCR
    members of [ocrApi] are typed [OCRResultResponse], [analyzeStructure]
    is typed [StructureResultResponse]. *)
Inductive Reply : Type :=
| FlatReply (out : Settled OCRResultResponse.t)
| StructureReply (out : Settled StructureResultResponse.t).

(** The continuation of [o] on a reply; [None] when the reply is not of
    the type of [o]. *)
Definition resume (o : Operation) (r : Reply) (s : State) : option State :=
  match o, r with
  | ProcessImage _, FlatReply out => Some (processImage_then out s)
  | ProcessPdf _, FlatReply out => Some (processPdf_then out s)
  | AnalyzeStructure _, StructureReply out => Some (analyzeStructure_then out s)
  | LoadFromHistory _, FlatReply out => Some (loadFromHistory_then out s)
  | _, _ => None
  end.

(** Both payloads are populated. *)
Definition both_populated (s : State) : bool :=
  match result s, structureResult s with
  | Some _, Some _ => true
  | _, _ => false
  end.

End useOCR.

(* ================================================================== *)
(** * App.tsx *)
(* ================================================================== *)

(** The union ['ocr' | 'structure'] of the upload mode. *)
Inductive Mode : Type := ocr | structure.

Module App.

Inductive Toast : Type :=
| toast_success (msg : string)
| toast_error (msg : string).

Record State : Type := mk {
  hook : useOCR.State;
  refreshHistory : Z;
  toasts : list Toast
}.

Definition initial : State := mk useOCR.initial 0 [].

(** The branch of [handleUpload] taken for [file] and [mode]: which hook
    operation is awaited. *)
Definition handleUpload_operation (file : File.t) (mode : Mode) : useOCR.Operation :=
  match mode with
  | structure => useOCR.AnalyzeStructure file
  | ocr =>
      if String.eqb (File.type file) "application/pdf"
      then useOCR.ProcessPdf file
      else useOCR.ProcessImage file
  end.

(** [handleUpload] up to its [await]: the state after the hook operation
    has started, and the requests issued. *)
Definition handleUpload (file : File.t) (mode : Mode) (s : State) : State * list Request :=
  let '(h, req) := useOCR.call (handleUpload_operation file mode) (hook s) in
  (mk h (refreshHistory s) (toasts s), [req]).

(** [handleUpload] after its [await].  The hook operations catch their
    own errors, so the [catch] clause of [handleUpload] is never
    entered. *)
Definition handleUpload_then (h : useOCR.State) (s : State) : State :=
  mk h (refreshHistory s + 1) (toasts s ++ [toast_success "OCR processing completed!"]).

Definition handleHistorySelect (id : string) (s : State) : State * list Request :=
  let '(h, req) := useOCR.loadFromHistory id (hook s) in
  (mk h (refreshHistory s) (toasts s), [req]).

Definition handleReset (s : State) : State :=
  mk (useOCR.reset (hook s)) (refreshHistory s) (toasts s).

(** [result || structureResult] is truthy. *)
Definition hasResult (s : State) : bool :=
  match useOCR.result (hook s), useOCR.structureResult (hook s) with
  | None, None => false
  | _, _ => true
  end.

(** ** The running application

    The state of [App] together with the hook operations whose request
    has not been answered yet, and the requests sent so far. *)
Record Running : Type := mkRunning {
  app : State;
  inflight : list useOCR.Operation;
  sent : list Request
}.

Definition boot : Running := mkRunning initial [] [].

Inductive Event : Type :=
| Submit (file : File.t) (mode : Mode)   (* the submit button of FileUpload *)
| SelectHistory (id : string)            (* a click on a row of History *)
| CloseResult                            (* the close button of OCRResult *)
| Answer (o : useOCR.Operation) (r : useOCR.Reply).

Fixpoint remove_first (o : useOCR.Operation) (l : list useOCR.Operation)
  : option (list useOCR.Operation) :=
  match l with
  | [] => None
  | x :: rest =>
      if useOCR.Operation_eqb o x then Some rest
      else option_map (cons x) (remove_first o rest)
  end.

Definition is_upload (o : useOCR.Operation) : bool :=
  match o with
  | useOCR.LoadFromHistory _ => false
  | _ => true
  end.

(** One event; [None] when the interface does not offer it:
    - the submit button is disabled while [isLoading];
    - rows of History are always clickable;
    - the close button exists only while OCRResult is rendered;
    - an answer needs its request to be in flight. *)
Definition step (w : Running) (e : Event) : option Running :=
  match e with
  | Submit file mode =>
      if useOCR.isLoading (hook (app w)) then None
      else
        let '(a, reqs) := handleUpload file mode (app w) in
        Some (mkRunning a (inflight w ++ [handleUpload_operation file mode])
                        (sent w ++ reqs))
  | SelectHistory id =>
      let '(a, reqs) := handleHistorySelect id (app w) in
      Some (mkRunning a (inflight w ++ [useOCR.LoadFromHistory id]) (sent w ++ reqs))
  | CloseResult =>
      if hasResult (app w) then Some (mkRunning (handleReset (app w)) (inflight w) (sent w))
      else None
  | Answer o r =>
      match remove_first o (inflight w), useOCR.resume o r (hook (app w)) with
      | Some rest, Some h =>
          let a :=
            if is_upload o then handleUpload_then h (app w)
            else mk h (refreshHistory (app w)) (toasts (app w)) in
          Some (mkRunning a rest (sent w))
      | _, _ => None
      end
  end.

Fixpoint run (w : Running) (es : list Event) : option Running :=
  match es with
  | [] => Some w
  | e :: rest =>
      match step w e with
      | Some w' => run w' rest
      | None => None
      end
  end.

End App.

(* ================================================================== *)
(** * components/OCRResult.tsx *)
(* ================================================================== *)

Module OCRResultView.

Inductive ViewMode : Type := text | markdown | json.

(** The members [OCRResultResponse] and [StructureResultResponse] have in
    common, which is all the component reads from [activeResult]. *)
Record Active : Type := mkActive {
  filename : string;
  processing_time : option string;
  status : ProcessingStatus;
  error_message : option string
}.

(** [result || structureResult] *)
Definition activeResult (result : option OCRResultResponse.t)
           (structureResult : option StructureResultResponse.t) : option Active :=
  match result, structureResult with
  | Some r, _ =>
      Some (mkActive (OCRResultResponse.filename r) (OCRResultResponse.processing_time r)
                     (OCRResultResponse.status r) (OCRResultResponse.error_message r))
  | None, Some r =>
      Some (mkActive (StructureResultResponse.filename r)
                     (StructureResultResponse.processing_time r)
                     (StructureResultResponse.status r)
                     (StructureResultResponse.error_message r))
  | None, None => None
  end.

Definition isError (a : Active) : bool := ProcessingStatus_eqb (status a) failed.

Inductive OcrData : Type :=
| FlatData (d : OCRResult.t)
| StructureData (d : StructureResult.t).

(** [result?.ocr_result || structureResult?.structure_result] *)
Definition ocrData (result : option OCRResultResponse.t)
           (structureResult : option StructureResultResponse.t) : option OcrData :=
  match option_map OCRResultResponse.ocr_result result with
  | Some (Some d) => Some (FlatData d)
  | _ =>
      match option_map StructureResultResponse.structure_result structureResult with
      | Some (Some d) => Some (StructureData d)
      | _ => None
      end
  end.

(** What the [<pre>] shows: a string, or the [JSON.stringify] of the
    payload (kept symbolic). *)
Inductive Content : Type :=
| Plain (s : string)
| Stringified (d : option OcrData).

Definition getTextContent (result : option OCRResultResponse.t)
           (structureResult : option StructureResultResponse.t) : string :=
  match option_map OCRResultResponse.ocr_result result with
  | Some (Some d) => OCRResult.text d
  | _ =>
      match option_map StructureResultResponse.structure_result structureResult with
      | Some (Some d) =>
          String.concat (LF ++ LF) (map StructureBlock.content (StructureResult.blocks d))
      | _ => ""
      end
  end.

(** [ocrData?.markdown || ''] *)
Definition getMarkdownContent (data : option OcrData) : string :=
  match data with
  | Some (FlatData d) => or_else (OCRResult.markdown d) ""
  | Some (StructureData d) => or_else (Some (StructureResult.markdown d)) ""
  | None => ""
  end.

Definition getDisplayContent (viewMode : ViewMode) (result : option OCRResultResponse.t)
           (structureResult : option StructureResultResponse.t) : Content :=
  match viewMode with
  | text => Plain (getTextContent result structureResult)
  | markdown => Plain (getMarkdownContent (ocrData result structureResult))
  | json => Stringified (ocrData result structureResult)
  end.

(** The rendered tree, section by section; a section that is not rendered
    is [None]. *)
Record Rendered : Type := mkRendered {
  heading : string;                               (* the file name *)
  subtitle : string;
  error_state : option string;                    (* the red paragraph *)
  content : option (list ViewMode * Content)      (* the tabs and the [<pre>] *)
}.

Definition render_subtitle (a : Active) (result : option OCRResultResponse.t) : string :=
  (if truthy (processing_time a)
   then "Processed in " ++ or_else (processing_time a) ""
   else "")
  ++
  match option_map OCRResultResponse.ocr_result result with
  | Some (Some d) =>
      " | " ++ Z_toString (Z.of_nat (List.length (OCRResult.blocks d))) ++ " text blocks"
  | _ => ""
  end.

(** The component; [None] is the [return null] of a missing
    [activeResult]. *)
Definition OCRResult (viewMode : ViewMode) (result : option OCRResultResponse.t)
           (structureResult : option StructureResultResponse.t) : option Rendered :=
  match activeResult result structureResult with
  | None => None
  | Some a =>
      let data := ocrData result structureResult in
      Some (mkRendered
              (filename a)
              (render_subtitle a result)
              (if isError a
               then Some (or_else (error_message a) "An error occurred")
               else None)
              (if negb (isError a) then
                 match data with
                 | Some _ =>
                     Some ([text; markdown; json],
                           getDisplayContent viewMode result structureResult)
                 | None => None
                 end
               else None))
  end.

End OCRResultView.

(* ================================================================== *)
(** * react-dropzone, as far as FileUpload configures it *)
(* ================================================================== *)

Definition toLowerCase_ascii (c : ascii) : ascii :=
  let n := nat_of_ascii c in
  if (65 <=? n)%nat && (n <=? 90)%nat then ascii_of_nat (n + 32) else c.

Fixpoint toLowerCase (s : string) : string :=
  match s with
  | EmptyString => EmptyString
  | String c rest => String (toLowerCase_ascii c) (toLowerCase rest)
  end.

Definition endsWith (s suffix : string) : bool :=
  let n := String.length s in
  let m := String.length suffix in
  (m <=? n)%nat && String.eqb (substring (n - m) m s) suffix.

(** The [useDropzone] hook of the react-dropzone package (a dependency of
    the frontend) handles a drop or a file choice in two steps.

    First [getFilesFromEvent] (by default [fromEvent] of the file-selector
    package) turns the event into a list of files: it leaves out files
    named .DS_Store or Thumbs.db of a drop, and gives a file that has an
    extension but an empty [type] the MIME type its table lists for that
    extension.  This step is a parameter here, a [Selector]; nothing is
    assumed about it.

    Then the files it delivers are filtered: a file passes when its type
    is application/x-moz-file, or its MIME type is a key of [accept], or
    its name ends in one of the listed extensions, and its size lies
    between [minSize] and [maxSize]; when more files pass than [maxFiles]
    allows, none is accepted.  An option the caller leaves out has the
    package's default. *)
Module Dropzone.

(** [getFilesFromEvent]: from the files of the event to the files the
    filter sees. *)
Definition Selector : Type := list File.t -> list File.t.

Record Options : Type := mkOptions {
  accept : list (string * list string);
  maxFiles : Z;
  minSize : N;
  maxSize : option N;     (* [None] is the default, [Infinity] *)
  multiple : bool;
  disabled : bool
}.

(** [file.type === "application/x-moz-file" || accepts(file, accept)] *)
Definition fileAccepted (file : File.t) (accept : list (string * list string)) : bool :=
  String.eqb (File.type file) "application/x-moz-file"
  || match accept with
     | [] => true
     | _ =>
         existsb
           (fun entry =>
              String.eqb (toLowerCase (File.type file)) (toLowerCase (fst entry))
              || existsb (fun ext => endsWith (toLowerCase (File.name file)) (toLowerCase ext))
                         (snd entry))
           accept
     end.

Definition fileMatchSize (file : File.t) (minSize : N) (maxSize : option N) : bool :=
  N.leb minSize (File.size file)
  && match maxSize with
     | Some m => N.leb (File.size file) m
     | None => true
     end.

(** The second step.  [files] are the files as [getFilesFromEvent]
    delivered them; the result is the [acceptedFiles] passed to [onDrop],
    [None] when the zone is disabled and [onDrop] is not called. *)
Definition drop (o : Options) (files : list File.t) : option (list File.t) :=
  if disabled o then None
  else
    let accepted :=
      filter (fun f => fileAccepted f (accept o) && fileMatchSize f (minSize o) (maxSize o))
             files in
    let n := Z.of_nat (List.length accepted) in
    if (negb (multiple o) && (1 <? n))
       || (multiple o && (1 <=? maxFiles o) && (maxFiles o <? n))
    then Some []
    else Some accepted.

(** Both steps, from the files of the event. *)
Definition on_event (getFilesFromEvent : Selector) (o : Options) (event_files : list File.t)
  : option (list File.t) :=
  drop o (getFilesFromEvent event_files).

End Dropzone.

(* ================================================================== *)
(** * The FileUpload component *)
(* ================================================================== *)

Module FileUpload.

Definition ACCEPTED_IMAGE_TYPES : list (string * list string) :=
  [("image/png", [".png"]);
   ("image/jpeg", [".jpg"; ".jpeg"]);
   ("image/webp", [".webp"])].

Definition ACCEPTED_PDF_TYPES : list (string * list string) :=
  [("application/pdf", [".pdf"])].

Record State : Type := mk {
  selectedFile : option File.t;
  mode : Mode
}.

Definition initial : State := mk None ocr.

Definition onDrop (acceptedFiles : list File.t) (s : State) : State :=
  match acceptedFiles with
  | first :: _ => mk (Some first) (mode s)
  | [] => s
  end.

(** The options object given to [useDropzone]: [accept], [maxFiles] and
    [disabled] are set, nothing else is. *)
Definition dropzone_options (isLoading : bool) : Dropzone.Options :=
  Dropzone.mkOptions (ACCEPTED_IMAGE_TYPES ++ ACCEPTED_PDF_TYPES) 1 0 None true isLoading.

(** The zone filters [files], the files [getFilesFromEvent] delivered for
    a drop or a choice, and calls [onDrop]. *)
Definition drop (isLoading : bool) (files : list File.t) (s : State) : State :=
  match Dropzone.drop (dropzone_options isLoading) files with
  | Some acceptedFiles => onDrop acceptedFiles s
  | None => s
  end.

(** Files are dropped on (or chosen through) the zone: [getFilesFromEvent]
    runs first, so the file stored is the file as it delivered it. *)
Definition drop_event (getFilesFromEvent : Dropzone.Selector) (isLoading : bool)
           (event_files : list File.t) (s : State) : State :=
  match Dropzone.on_event getFilesFromEvent (dropzone_options isLoading) event_files with
  | Some acceptedFiles => onDrop acceptedFiles s
  | None => s
  end.

(** The arguments [onUpload] is called with, if it is called. *)
Definition handleSubmit (s : State) : option (File.t * Mode) :=
  match selectedFile s with
  | Some file => Some (file, mode s)
  | None => None
  end.

Definition handleClear (s : State) : State := mk None (mode s).

Definition setMode (m : Mode) (s : State) : State := mk (selectedFile s) m.

Definition isPdf (s : State) : bool :=
  match selectedFile s with
  | Some file => String.eqb (File.type file) "application/pdf"
  | None => false
  end.

(** The hint printed inside the zone. *)
Definition hint : string := "Supports PNG, JPG, WEBP, PDF (max 50MB)".

(** The size the hint names, in bytes. *)
Definition hinted_max_size : N := 50 * 1024 * 1024.

(** The type test the zone applies with the [accept] option above. *)
Definition type_accepted (file : File.t) : bool :=
  Dropzone.fileAccepted file (ACCEPTED_IMAGE_TYPES ++ ACCEPTED_PDF_TYPES).

(** The states the component can be in: files are dropped (while the
    application is loading or not), the selection is cleared, the mode is
    switched. *)
Inductive reachable : State -> Prop :=
| reach_initial : reachable initial
| reach_drop : forall isLoading files s, reachable s -> reachable (drop isLoading files s)
| reach_clear : forall s, reachable s -> reachable (handleClear s)
| reach_mode : forall m s, reachable s -> reachable (setMode m s).

(** Submitting the selection from [App]: the requests that leave the
    browser ([onUpload] is [App.handleUpload]). *)
Definition submit (s : State) (a : App.State) : list Request :=
  match handleSubmit s with
  | Some (file, m) => snd (App.handleUpload file m a)
  | None => []
  end.

End FileUpload.

(* ================================================================== *)
(** * The History component *)
(* ================================================================== *)

Module History.

(** [STATUS_LABELS: Record<ProcessingStatus, string>] *)
Definition STATUS_LABELS (s : ProcessingStatus) : string :=
  match s with
  | pending => "Pending"
  | processing => "Processing"
  | completed => "Completed"
  | failed => "Failed"
  end.

Definition STATUS_COLORS (s : ProcessingStatus) : string :=
  match s with
  | pending => "bg-yellow-100 text-yellow-800"
  | processing => "bg-blue-100 text-blue-800"
  | completed => "bg-green-100 text-green-800"
  | failed => "bg-red-100 text-red-800"
  end.

Record State : Type := mk {
  history : option HistoryListResponse.t;
  isLoading : bool;
  error : option string;
  page : JsNum
}.

Definition initial : State := mk None false None (Fin 1).

Definition setPage (p : JsNum) (s : State) : State :=
  mk (history s) (isLoading s) (error s) p.

(** [fetchHistory] up to its [await]. *)
Definition fetchHistory (s : State) : State * Request :=
  let s' := mk (history s) true None (page s) in
  (s', historyApi.list (Some (page s)) (Some (Fin 10)) None).

(** [fetchHistory] after its [await]. *)
Definition fetchHistory_then (out : Settled HistoryListResponse.t) (s : State) : State :=
  match out with
  | Fulfilled data => mk (Some data) false (error s) (page s)
  | Rejected _ => mk (history s) false (Some "Failed to load history") (page s)
  end.

(** [history ? Math.ceil(history.total / history.page_size) : 0] *)
Definition totalPages (s : State) : JsNum :=
  match history s with
  | Some h => Math_ceil_div (HistoryListResponse.total h) (HistoryListResponse.page_size h)
  | None => Fin 0
  end.

(** The updaters given to [setPage] by the two buttons. *)
Definition previous_page (p : JsNum) : JsNum := Math_max (Fin 1) (plus p (-1)).
Definition next_page (totalPages p : JsNum) : JsNum := Math_min totalPages (plus p 1).

(** The pagination bar. *)
Record Pagination : Type := mkPagination {
  previous_disabled : bool;
  label_page : JsNum;          (* "Page {page} of {totalPages}" *)
  label_total : JsNum;
  next_disabled : bool
}.

(** [{totalPages > 1 && (...)}] *)
Definition pagination (s : State) : option Pagination :=
  if gt (totalPages s) 1
  then Some (mkPagination (strict_eq (page s) (Fin 1)) (page s) (totalPages s)
                          (strict_eq (page s) (totalPages s)))
  else None.

(** ** The running component

    The state, the number of [fetchHistory] calls not answered yet, and
    the requests sent so far. *)
Record Running : Type := mkRunning {
  view : State;
  awaiting : nat;
  sent : list Request
}.

Definition start_fetch (w : Running) : Running :=
  let '(s, req) := fetchHistory (view w) in
  mkRunning s (S (awaiting w)) (sent w ++ [req]).

(** The effect [useEffect(() => fetchHistory(), [fetchHistory, refreshTrigger])]
    runs after the first render. *)
Definition mount : Running := start_fetch (mkRunning initial 0 []).

Inductive Event : Type :=
| Refresh                                           (* [refreshTrigger] changed, or an item was deleted *)
| Loaded (out : Settled HistoryListResponse.t)      (* a [fetchHistory] call is answered *)
| Previous                                          (* a click on Previous *)
| Next.                                             (* a click on Next *)

(** A click changes [page] through the updater; when the value changes
    [fetchHistory] is rebuilt and the effect runs again. *)
Definition turn (p : JsNum) (w : Running) : Running :=
  if strict_eq p (page (view w)) then w
  else start_fetch (mkRunning (setPage p (view w)) (awaiting w) (sent w)).

(** One event; [None] when it cannot happen: a button that is not
    rendered or is disabled takes no click, an answer needs a call in
    flight. *)
Definition step (w : Running) (e : Event) : option Running :=
  match e with
  | Refresh => Some (start_fetch w)
  | Loaded out =>
      match awaiting w with
      | O => None
      | S n => Some (mkRunning (fetchHistory_then out (view w)) n (sent w))
      end
  | Previous =>
      match pagination (view w) with
      | Some bar =>
          if previous_disabled bar then None
          else Some (turn (previous_page (page (view w))) w)
      | None => None
      end
  | Next =>
      match pagination (view w) with
      | Some bar =>
          if next_disabled bar then None
          else Some (turn (next_page (totalPages (view w)) (page (view w))) w)
      | None => None
      end
  end.

Fixpoint run (w : Running) (es : list Event) : option Running :=
  match es with
  | [] => Some w
  | e :: rest =>
      match step w e with
      | Some w' => run w' rest
      | None => None
      end
  end.

(** The states the component can be in. *)
Inductive reachable : Running -> Prop :=
| reach_mount : reachable mount
| reach_step : forall w e w', reachable w -> step w e = Some w' -> reachable w'.

End History.

(* ================================================================== *)
(** * The server behind the API *)
(* ================================================================== *)

(** The backend is not among the frontend sources; the three pieces of it
    that the properties below mention are written from the design
    document. *)
Module Server.

(** The text and the detections the inference produced for one page. *)
Record PageDetections : Type := mkPage {
  page_text : string;
  detections : list OCRBlock.t
}.

Definition tag_page (index : nat) (b : OCRBlock.t) : OCRBlock.t :=
  OCRBlock.mk (OCRBlock.text b) (OCRBlock.confidence b) (OCRBlock.bbox b)
              (Some (inject_Z (Z.of_nat index))).

Fixpoint flatten_from (index : nat) (pages : list PageDetections) : list OCRBlock.t :=
  match pages with
  | [] => []
  | p :: rest => map (tag_page index) (detections p) ++ flatten_from (S index) rest
  end.

(** Modelled from the spec: BlockAggregator (section 4.3), missing from
    the sources.  [aggregate] concatenates the per-page text with a blank
    line as page-boundary separator, preserving page order; flattens the
    detections into one block list, each block tagged with its source
    page index (0-based); and leaves the markdown field null. *)
Definition aggregate (pages : list PageDetections) : OCRResult.t :=
  OCRResult.mk (String.concat (LF ++ LF) (map page_text pages))
               (flatten_from 0 pages)
               None.

(** What is fixed about a Job before the pipeline runs, and the duration
    recorded at its terminal transition. *)
Record JobMeta : Type := mkJobMeta {
  job_id : string;
  job_filename : string;
  job_file_type : string;
  job_created_at : string;
  job_processing_time : string
}.

Inductive Outcome : Type :=
| RejectedAtIngestion (code : Z)     (* ValidationError *)
| PipelineFailed (cause : string)    (* ExtractionError, InferenceFailure *)
| PipelineCompleted (r : OCRResult.t).

Definition terminal_job (m : JobMeta) (st : ProcessingStatus)
           (r : option OCRResult.t) (msg : option string) : OCRResultResponse.t :=
  OCRResultResponse.mk (job_id m) (job_filename m) (job_file_type m) (job_created_at m)
                       (Some (job_processing_time m)) st r msg.

(** Modelled from the spec: the answer of a flat-OCR processing endpoint
    (sections 4.5, 5 and 7), missing from the sources.  A request rejected
    at ingestion creates no Job and is answered with an error status
    code; an accepted request runs the pipeline inside the call and
    the response carries the terminal Job: [completed] with the result,
    or [failed] with the human-readable cause as [error_message]. *)
Definition flat_endpoint (m : JobMeta) (o : Outcome) : Transport OCRResultResponse.t :=
  match o with
  | RejectedAtIngestion code => BadStatus code
  | PipelineFailed cause => Ok2xx (terminal_job m failed None (Some cause))
  | PipelineCompleted r => Ok2xx (terminal_job m completed (Some r) None)
  end.

(** The order of the listing: [created_at] descending, [id] as tie-break. *)
Definition newer_or_same (a b : HistoryListItem.t) : bool :=
  match String.compare (HistoryListItem.created_at a) (HistoryListItem.created_at b) with
  | Gt => true
  | Lt => false
  | Eq =>
      match String.compare (HistoryListItem.id a) (HistoryListItem.id b) with
      | Lt => false
      | _ => true
      end
  end.

Fixpoint insert_job (j : HistoryListItem.t) (sorted : list HistoryListItem.t)
  : list HistoryListItem.t :=
  match sorted with
  | [] => [j]
  | x :: rest => if newer_or_same j x then j :: sorted else x :: insert_job j rest
  end.

Definition newest_first (jobs : list HistoryListItem.t) : list HistoryListItem.t :=
  fold_right insert_job [] jobs.

(** Modelled from the spec: HistoryStore.list (section 4.6), missing from
    the sources.  Ordering is by [created_at] descending with [id] as
    tie-break; pagination is offset-based, page 1 beginning at the newest
    record; [page_size] bounds the slice; [total] is the full count,
    computed independently of the slice. *)
Definition history_list (jobs : list HistoryListItem.t) (page page_size : Z)
  : HistoryListResponse.t :=
  HistoryListResponse.mk
    (firstn (Z.to_nat page_size)
            (skipn (Z.to_nat ((page - 1) * page_size)) (newest_first jobs)))
    (Z.of_nat (List.length jobs))
    page
    page_size.

End Server.

(* ================================================================== *)
(** * What App.tsx renders around the result *)
(* ================================================================== *)

Module AppView.

(** [{hasResult && <OCRResult result structureResult onReset />}]; the
    view mode is the state of the component. *)
Definition result_section (viewMode : OCRResultView.ViewMode) (s : App.State)
  : option OCRResultView.Rendered :=
  if App.hasResult s
  then OCRResultView.OCRResult viewMode (useOCR.result (App.hook s))
                               (useOCR.structureResult (App.hook s))
  else None.


End AppView.

(* ================================================================== *)
(** * The History component: what it renders, and the delete handlers *)
(* ================================================================== *)

Module HistoryView.

Record Rendered : Type := mkRendered {
  delete_all_button : bool;            (* [history && history.total > 0] *)
  loading_row : bool;                  (* "Loading..." *)
  error_row : option string;
  empty_state : bool;                  (* "No OCR history yet" *)
  rows : list HistoryListItem.t;
  bar : option History.Pagination
}.

Definition render (s : History.State) : Rendered :=
  let quiet := negb (History.isLoading s) && negb (truthy (History.error s)) in
  mkRendered
    (match History.history s with
     | Some h => 0 <? HistoryListResponse.total h
     | None => false
     end)
    (History.isLoading s)
    (if truthy (History.error s) then History.error s else None)
    (quiet && match History.history s with
              | Some h => match HistoryListResponse.items h with [] => true | _ => false end
              | None => false
              end)
    (if quiet
     then match History.history s with
          | Some h => HistoryListResponse.items h
          | None => []
          end
     else [])
    (History.pagination s).

End HistoryView.

Module HistoryActions.

(** [fetchHistory] as a handler holds it: the closure of the render in
    which the handler was created, asking for the page of that render. *)
Definition fetchHistory_of (captured_page : JsNum) (w : History.Running) : History.Running :=
  History.mkRunning
    (History.mk (History.history (History.view w)) true None (History.page (History.view w)))
    (S (History.awaiting w))
    (History.sent w ++ [historyApi.list (Some captured_page) (Some (Fin 10)) None]).

(** [handleDelete] up to its [await]; [confirmed] is the answer to the
    [confirm] dialog.  The result holds the page captured by the handler
    when the request was sent, [None] when the dialog was declined. *)
Definition handleDelete (confirmed : bool) (id : string) (w : History.Running)
  : History.Running * option JsNum :=
  if confirmed
  then (History.mkRunning (History.view w) (History.awaiting w)
                          (History.sent w ++ [historyApi.delete id]),
        Some (History.page (History.view w)))
  else (w, None).

(** [handleDelete] after its [await]: the new state and the [alert]s. *)
Definition handleDelete_then (captured_page : JsNum) (out : Settled unit)
           (w : History.Running) : History.Running * list string :=
  match out with
  | Fulfilled _ => (fetchHistory_of captured_page w, [])
  | Rejected _ => (w, ["Failed to delete"])
  end.

Definition handleDeleteAll (confirmed : bool) (w : History.Running)
  : History.Running * option JsNum :=
  if confirmed
  then (History.mkRunning (History.view w) (History.awaiting w)
                          (History.sent w ++ [historyApi.deleteAll]),
        Some (History.page (History.view w)))
  else (w, None).

Definition handleDeleteAll_then (captured_page : JsNum) (out : Settled unit)
           (w : History.Running) : History.Running * list string :=
  match out with
  | Fulfilled _ => (fetchHistory_of captured_page w, [])
  | Rejected _ => (w, ["Failed to delete all history"])
  end.

End HistoryActions.

(* ================================================================== *)
(** * Sample values *)
(* ================================================================== *)

(** A failed PDF job as a history row. *)
Definition sample_item : HistoryListItem.t :=
  HistoryListItem.mk "7f3a" "scan.pdf" "pdf" "2024-05-01T10:00:00" failed (Some "3").

(** A listing with one failed PDF job, as the server would send it. *)
Definition sample_listing : Json :=
  JObj [("items",
         JArr [json_of_HistoryListItem sample_item]);
        ("total", JNum (inject_Z 1));
        ("page", JNum (inject_Z 1));
        ("page_size", JNum (inject_Z 10))].

(** A completed structure analysis with one heading and no table. *)
Definition sample_structure : StructureResultResponse.t :=
  StructureResultResponse.mk
    "b2c1" "report.png" "2024-05-01T10:05:00" (Some "1.8s") completed
    (Some (StructureResult.mk
             [StructureBlock.mk "heading" "Quarterly report"
                                [inject_Z 10; inject_Z 12; inject_Z 200; inject_Z 40]
                                (inject_Z 1)]
             "# Quarterly report"
             []))
    None.

(** Two pages of flat detections. *)
Definition sample_pages : list Server.PageDetections :=
  [Server.mkPage "first page"
                 [OCRBlock.mk "first page" (inject_Z 1)
                              [inject_Z 0; inject_Z 0; inject_Z 90; inject_Z 20] None];
   Server.mkPage "second page"
                 [OCRBlock.mk "second page" (inject_Z 1)
                              [inject_Z 0; inject_Z 0; inject_Z 95; inject_Z 20] None]].

Definition sample_pdf : File.t := File.mk "contract.pdf" "application/pdf" 204800.

Definition sample_png : File.t := File.mk "receipt.png" "image/png" 51200.

(** A PNG of 60 MB. *)
Definition sample_large_png : File.t := File.mk "poster.png" "image/png" (60 * 1024 * 1024).

(** A failed job whose error message is the empty string. *)
Definition sample_failed_blank : OCRResultResponse.t :=
  OCRResultResponse.mk "c9d0" "blank.pdf" "pdf" "2024-05-01T10:10:00" (Some "0.2s")
                       failed None (Some "").

(** A failed job with a message. *)
Definition sample_failed : OCRResultResponse.t :=
  OCRResultResponse.mk "c9d1" "broken.pdf" "pdf" "2024-05-01T10:11:00" (Some "0.3s")
                       failed None (Some "Could not read the PDF").

(** A completed flat job. *)
Definition sample_completed : OCRResultResponse.t :=
  OCRResultResponse.mk "c9d2" "receipt.png" "image" "2024-05-01T10:12:00" (Some "0.9s")
                       completed (Some (Server.aggregate sample_pages)) None.

(** Twenty-five stored jobs, created one after the other. *)
Definition sample_job (n : nat) : HistoryListItem.t :=
  HistoryListItem.mk ("job-" ++ Z_toString (Z.of_nat n)) "scan.png" "image"
                     ("2024-05-01T10:00:" ++ Z_toString (10 + Z.of_nat n))
                     completed None.

Definition sample_jobs : list HistoryListItem.t := map sample_job (seq 0 25).

(** A structure analysis is submitted; while it is running a row of the
    history is clicked; the history row is answered first, the structure
    analysis afterwards. *)
Definition overlapping_trace : list App.Event :=
  [App.Submit sample_png structure;
   App.SelectHistory "c9d2";
   App.Answer (useOCR.LoadFromHistory "c9d2")
              (useOCR.FlatReply (axios_settle (Ok2xx sample_completed)));
   App.Answer (useOCR.AnalyzeStructure sample_png)
              (useOCR.StructureReply (axios_settle (Ok2xx sample_structure)))].

(** An empty history, as the server lists it. *)
Definition sample_empty_listing : HistoryListResponse.t :=
  HistoryListResponse.mk [] 0 1 10.

(** The first page of the 25 jobs arrives, then Next, Next, Previous. *)
Definition browsing_trace : list History.Event :=
  [History.Loaded (Fulfilled (Server.history_list sample_jobs 1 10));
   History.Next; History.Next; History.Previous].


(** Eleven jobs are listed and page 2 is opened; its only row is deleted
    and the listing is fetched again for page 2. *)
Definition shrinking_trace : list History.Event :=
  [History.Loaded (Fulfilled (Server.history_list (firstn 11 sample_jobs) 1 10));
   History.Next;
   History.Loaded (Fulfilled (Server.history_list (firstn 11 sample_jobs) 2 10));
   History.Refresh;
   History.Loaded (Fulfilled (Server.history_list (firstn 10 sample_jobs) 2 10))].

(** Two history rows are clicked one after the other; the first is
    answered. *)
Definition two_rows_trace : list App.Event :=
  [App.SelectHistory "c9d2";
   App.SelectHistory "c9d1";
   App.Answer (useOCR.LoadFromHistory "c9d2") (useOCR.FlatReply (Fulfilled sample_completed))].

(** A text file. *)
Definition sample_txt : File.t := File.mk "notes.txt" "text/plain" 1200.

(** The view is refreshed while its first fetch is in flight; the first
    fetch fails, the second one delivers the listing. *)
Definition stale_error_trace : list History.Event :=
  [History.Refresh;
   History.Loaded (Rejected (ErrorObject "Network Error"));
   History.Loaded (Fulfilled (Server.history_list sample_jobs 1 10))].

(* ================================================================== *)
(** * Properties *)
(* ================================================================== *)

(** ** Conformance of JSON values to the declared types *)

Lemma conforms_object (fields : list (Field TsType)) (members : list (string * Json)) :
  conforms (TObject fields) (JObj members)
  = forallb (fun f => match lookup (fname f) members with
                      | Some v => conforms (ftype f) v
                      | None => optional f
                      end) fields.
Proof.
  induction fields as [|f rest IH]; [reflexivity|].
  cbn [forallb]. rewrite <- IH. reflexivity.
Qed.

Lemma conforms_object_inv (fields : list (Field TsType)) (j : Json) :
  conforms (TObject fields) j = true -> exists members, j = JObj members.
Proof.
  destruct j; cbn; try discriminate. intros _. eexists; reflexivity.
Qed.

(** A required member of a conforming object is present and conforms. *)
Lemma conforms_member (fields : list (Field TsType)) (j : Json) (f : Field TsType) :
  conforms (TObject fields) j = true ->
  In f fields ->
  optional f = false ->
  exists v, member (fname f) j = Some v /\ conforms (ftype f) v = true.
Proof.
  intros Hc Hin Hreq.
  destruct (conforms_object_inv _ _ Hc) as [members ->].
  rewrite conforms_object in Hc.
  rewrite forallb_forall in Hc. specialize (Hc f Hin).
  cbn [member]. destruct (lookup (fname f) members) as [v|].
  - exists v. split; [reflexivity | exact Hc].
  - congruence.
Qed.

Lemma conforms_union (alts : list TsType) (j : Json) :
  conforms (TUnion alts) j = existsb (fun a => conforms a j) alts.
Proof.
  induction alts as [|a rest IH]; [reflexivity|].
  cbn [existsb]. rewrite <- IH. reflexivity.
Qed.

Lemma conforms_string (v : Json) :
  conforms TString v = true -> exists s, v = JStr s.
Proof. destruct v; cbn; try discriminate. intros _. eexists; reflexivity. Qed.

Lemma conforms_array (elt : TsType) (v : Json) :
  conforms (TArray elt) v = true ->
  exists items, v = JArr items /\ forall i, In i items -> conforms elt i = true.
Proof.
  destruct v; cbn; try discriminate. intros H.
  exists items. split; [reflexivity|]. now apply forallb_forall.
Qed.

Lemma conforms_nullable (t : TsType) (v : Json) :
  conforms (nullable t) v = true -> v = JNull \/ conforms t v = true.
Proof.
  unfold nullable. rewrite conforms_union. cbn [existsb].
  rewrite orb_false_r. intros H. apply orb_true_iff in H as [H|H].
  - now right.
  - left. destruct v; cbn in H; try discriminate. reflexivity.
Qed.

(** The values of the status alias are the four literals, no other. *)
Lemma conforms_status (v : Json) :
  conforms Schema.ProcessingStatus v = true <->
  exists s : ProcessingStatus, v = JStr (status_literal s).
Proof.
  unfold Schema.ProcessingStatus. rewrite conforms_union. cbn [existsb].
  split.
  - destruct v as [| | |s| |]; cbn [conforms]; try discriminate.
    rewrite orb_false_r. intros H.
    repeat (apply orb_true_iff in H as [H|H]);
      apply String.eqb_eq in H; subst s;
      [exists pending | exists processing | exists completed | exists failed];
      reflexivity.
  - intros [s ->]. destruct s; reflexivity.
Qed.

Lemma forallb_map {A B : Type} (p : B -> bool) (g : A -> B) (l : list A) :
  forallb p (map g l) = forallb (fun a => p (g a)) l.
Proof. induction l as [|a l IH]; cbn; [reflexivity | now rewrite IH]. Qed.

Lemma forallb_true {A : Type} (p : A -> bool) (l : list A) :
  (forall a, p a = true) -> forallb p l = true.
Proof. intros H. apply forallb_forall. intros a _. apply H. Qed.

(** ** The record embedding agrees with the declarations *)

Lemma json_of_status_conforms (s : ProcessingStatus) :
  conforms Schema.ProcessingStatus (json_of_status s) = true.
Proof. destruct s; reflexivity. Qed.

Lemma json_of_OCRBlock_conforms (b : OCRBlock.t) :
  conforms Schema.OCRBlock (json_of_OCRBlock b) = true.
Proof.
  destruct b as [t c bb [p|]]; cbn;
    rewrite forallb_map, forallb_true by reflexivity; reflexivity.
Qed.

Lemma json_of_nullable_conforms {A : Type} (t : TsType) (enc : A -> Json) (v : option A) :
  (forall a, conforms t (enc a) = true) ->
  conforms (nullable t) (json_of_nullable enc v) = true.
Proof.
  intros H. unfold nullable. rewrite conforms_union. cbn [existsb].
  destruct v as [a|]; cbn [json_of_nullable].
  - now rewrite H.
  - cbn [conforms]. now rewrite orb_true_r.
Qed.

(** Splits the conformance of an encoded record into one goal per member
    and closes the routine ones. *)
Ltac conforms_members :=
  rewrite conforms_object;
  cbn -[conforms json_of_nullable json_of_status nullable
        Schema.OCRResult Schema.StructureResult Schema.ProcessingStatus
        Schema.OCRBlock Schema.StructureBlock Schema.HistoryListItem];
  repeat (apply andb_true_intro; split);
  try reflexivity;
  try apply json_of_status_conforms;
  try (apply json_of_nullable_conforms; intros; reflexivity).

Lemma json_of_OCRResult_conforms (r : OCRResult.t) :
  conforms Schema.OCRResult (json_of_OCRResult r) = true.
Proof.
  unfold Schema.OCRResult at 1, json_of_OCRResult. conforms_members.
  cbn [conforms]. rewrite forallb_map. apply forallb_true, json_of_OCRBlock_conforms.
Qed.

Lemma json_of_OCRResultResponse_conforms (r : OCRResultResponse.t) :
  conforms Schema.OCRResultResponse (json_of_OCRResultResponse r) = true.
Proof.
  unfold Schema.OCRResultResponse, json_of_OCRResultResponse. conforms_members.
  apply json_of_nullable_conforms, json_of_OCRResult_conforms.
Qed.

Lemma json_of_HistoryListItem_conforms (i : HistoryListItem.t) :
  conforms Schema.HistoryListItem (json_of_HistoryListItem i) = true.
Proof.
  unfold Schema.HistoryListItem at 1, json_of_HistoryListItem. conforms_members.
Qed.

Lemma json_of_StructureBlock_conforms (b : StructureBlock.t) :
  conforms Schema.StructureBlock (json_of_StructureBlock b) = true.
Proof.
  unfold Schema.StructureBlock at 1, json_of_StructureBlock. conforms_members.
  cbn [conforms]. rewrite forallb_map. now apply forallb_true.
Qed.

Lemma json_of_StructureResult_conforms (r : StructureResult.t) :
  conforms Schema.StructureResult (json_of_StructureResult r) = true.
Proof.
  unfold Schema.StructureResult at 1, json_of_StructureResult. conforms_members.
  - cbn [conforms]. rewrite forallb_map. apply forallb_true, json_of_StructureBlock_conforms.
  - cbn [conforms]. rewrite forallb_map. apply forallb_true. intros members.
    now apply forallb_true.
Qed.

Lemma json_of_StructureResultResponse_conforms (r : StructureResultResponse.t) :
  conforms Schema.StructureResultResponse (json_of_StructureResultResponse r) = true.
Proof.
  unfold Schema.StructureResultResponse, json_of_StructureResultResponse. conforms_members.
  apply json_of_nullable_conforms, json_of_StructureResult_conforms.
Qed.

Lemma status_member (fields : list (Field TsType)) (j : Json) :
  conforms (TObject fields) j = true ->
  In (required "status" Schema.ProcessingStatus) fields ->
  exists s : ProcessingStatus, member "status" j = Some (JStr (status_literal s)).
Proof.
  intros Hc Hin.
  destruct (conforms_member _ _ _ Hc Hin eq_refl) as [v [Hv Hs]].
  apply conforms_status in Hs as [s ->]. now exists s.
Qed.

(** ** The response shapes *)

(** C1.  The three members of [ocrApi] that serve flat OCR (processImage,
    processPdf) and result re-fetch (getResult) are declared to return
    [OCRResultResponse].  That interface has exactly the members id,
    filename, file_type, created_at, processing_time, status, ocr_result and
    error_message, all required; processing_time, ocr_result and
    error_message (and no other member) admit null.  ocr_result holds an
    [OCRResult] with exactly text, blocks and markdown, blocks being a list
    of [OCRBlock] with exactly text, confidence, bbox and page, of which
    only page is optional.  Every value of the record embedding encodes to
    a JSON body with exactly these keys that conforms to the interface. *)
Theorem C1_OCRResultResponse_shape :
  ocrApi.result_type ocrApi.m_processImage = Schema.OCRResultResponse /\
  ocrApi.result_type ocrApi.m_processPdf = Schema.OCRResultResponse /\
  ocrApi.result_type ocrApi.m_getResult = Schema.OCRResultResponse /\
  field_names Schema.OCRResultResponse
  = ["id"; "filename"; "file_type"; "created_at"; "processing_time"; "status";
     "ocr_result"; "error_message"] /\
  map optional (fields_of Schema.OCRResultResponse)
  = [false; false; false; false; false; false; false; false] /\
  map (fun f => admits_null (ftype f)) (fields_of Schema.OCRResultResponse)
  = [false; false; false; false; true; false; true; true] /\
  field_type "ocr_result" Schema.OCRResultResponse = Some (nullable Schema.OCRResult) /\
  field_names Schema.OCRResult = ["text"; "blocks"; "markdown"] /\
  field_type "blocks" Schema.OCRResult = Some (TArray Schema.OCRBlock) /\
  field_names Schema.OCRBlock = ["text"; "confidence"; "bbox"; "page"] /\
  map optional (fields_of Schema.OCRBlock) = [false; false; false; true] /\
  (forall r : OCRResultResponse.t,
      keys (json_of_OCRResultResponse r) = field_names Schema.OCRResultResponse /\
      conforms Schema.OCRResultResponse (json_of_OCRResultResponse r) = true).
Proof.
  repeat match goal with |- _ /\ _ => split; [reflexivity|] end.
  intros r. split; [reflexivity | apply json_of_OCRResultResponse_conforms].
Qed.

(** C2.  The status member of [OCRResultResponse], of
    [StructureResultResponse] and of [HistoryListItem] is declared with one
    and the same alias, [ProcessingStatus], whose values are exactly the
    four strings pending, processing, completed and failed.  Hence a body
    conforming to either response type, and every item of a conforming
    history listing, carries one of these four strings as its status. *)
Theorem C2_status_domain :
  field_type "status" Schema.OCRResultResponse = Some Schema.ProcessingStatus /\
  field_type "status" Schema.StructureResultResponse = Some Schema.ProcessingStatus /\
  field_type "status" Schema.HistoryListItem = Some Schema.ProcessingStatus /\
  (forall v, conforms Schema.ProcessingStatus v = true <->
             In v [JStr "pending"; JStr "processing"; JStr "completed"; JStr "failed"]) /\
  map status_literal [pending; processing; completed; failed]
  = ["pending"; "processing"; "completed"; "failed"] /\
  (forall s : ProcessingStatus, In s [pending; processing; completed; failed]) /\
  (forall j, conforms Schema.OCRResultResponse j = true ->
             exists s, member "status" j = Some (JStr (status_literal s))) /\
  (forall j, conforms Schema.StructureResultResponse j = true ->
             exists s, member "status" j = Some (JStr (status_literal s))) /\
  (forall j items item,
      conforms Schema.HistoryListResponse j = true ->
      member "items" j = Some (JArr items) ->
      In item items ->
      exists s, member "status" item = Some (JStr (status_literal s))).
Proof.
  repeat match goal with |- _ /\ _ => split; [reflexivity|] end.
  split.
  { intros v. rewrite conforms_status. split.
    - intros [s ->]. destruct s; cbn; auto.
    - intros H. cbn in H.
      destruct H as [<-|[<-|[<-|[<-|[]]]]];
        [exists pending | exists processing | exists completed | exists failed];
        reflexivity. }
  split; [reflexivity|].
  split; [intros s; destruct s; cbn; auto|].
  split; [|split].
  - intros j Hc. apply (status_member _ _ Hc). cbn. auto 10.
  - intros j Hc. apply (status_member _ _ Hc). cbn. auto 10.
  - intros j items item Hc Hitems Hin.
    assert (Hf : In (required "items" (TArray Schema.HistoryListItem))
                    (fields_of Schema.HistoryListResponse)) by (cbn; auto).
    destruct (conforms_member _ _ _ Hc Hf eq_refl) as [v [Hv Ha]].
    cbn [fname required] in Hv. rewrite Hitems in Hv. injection Hv as <-.
    apply conforms_array in Ha as [items' [Heq Hall]]. injection Heq as <-.
    apply (status_member _ _ (Hall item Hin)). cbn. auto 10.
Qed.

Lemma C2_status_domain_witness :
  exists s,
    member "status" (json_of_HistoryListItem sample_item)
    = Some (JStr (status_literal s)).
Proof.
  refine (proj2 (proj2 (proj2 (proj2 (proj2 (proj2 (proj2 (proj2 C2_status_domain)))))))
            sample_listing _ _ _ _ _).
  - reflexivity.
  - reflexivity.
  - left. reflexivity.
Defined.

(** C6.  [StructureResultResponse] has exactly the members id, filename,
    created_at, processing_time, status, structure_result and
    error_message, all required; processing_time, structure_result and
    error_message (and no other member) admit null.  structure_result holds
    a [StructureResult] with exactly blocks, markdown and tables, blocks
    being a list of [StructureBlock] with exactly type, content, bbox and
    confidence.  It declares no file_type member, which
    [OCRResultResponse] does declare.  Every value of the record embedding
    encodes to a JSON body with exactly these keys that conforms to the
    interface. *)
Theorem C6_StructureResultResponse_shape :
  ocrApi.result_type ocrApi.m_analyzeStructure = Schema.StructureResultResponse /\
  field_names Schema.StructureResultResponse
  = ["id"; "filename"; "created_at"; "processing_time"; "status"; "structure_result";
     "error_message"] /\
  map optional (fields_of Schema.StructureResultResponse)
  = [false; false; false; false; false; false; false] /\
  map (fun f => admits_null (ftype f)) (fields_of Schema.StructureResultResponse)
  = [false; false; false; true; false; true; true] /\
  field_type "structure_result" Schema.StructureResultResponse
  = Some (nullable Schema.StructureResult) /\
  field_names Schema.StructureResult = ["blocks"; "markdown"; "tables"] /\
  field_type "blocks" Schema.StructureResult = Some (TArray Schema.StructureBlock) /\
  field_names Schema.StructureBlock = ["type"; "content"; "bbox"; "confidence"] /\
  field "file_type" Schema.StructureResultResponse = None /\
  field "file_type" Schema.OCRResultResponse = Some (required "file_type" TString) /\
  ~ In "file_type" (field_names Schema.StructureResultResponse) /\
  (forall r : StructureResultResponse.t,
      keys (json_of_StructureResultResponse r) = field_names Schema.StructureResultResponse /\
      member "file_type" (json_of_StructureResultResponse r) = None /\
      conforms Schema.StructureResultResponse (json_of_StructureResultResponse r) = true).
Proof.
  repeat match goal with |- _ /\ _ => split; [reflexivity|] end.
  split.
  { cbn. intros H. repeat (destruct H as [H|H]; [discriminate|]). exact H. }
  intros r. split; [reflexivity|]. split; [reflexivity|].
  apply json_of_StructureResultResponse_conforms.
Qed.

(** C5.  The markdown member of [OCRResult] is declared [string | null]
    and the aggregator of flat OCR mode leaves it null; the markdown member
    of [StructureResult] is declared [string], required, and does not admit
    null.  So a conforming flat result may carry a null markdown, while in
    every conforming structure result, and in the populated
    structure_result of every conforming structure response, markdown is
    present and is a string. *)
Theorem C5_markdown_presence :
  field "markdown" Schema.OCRResult = Some (required "markdown" (nullable TString)) /\
  field "markdown" Schema.StructureResult = Some (required "markdown" TString) /\
  admits_null (nullable TString) = true /\
  admits_null TString = false /\
  (forall pages, OCRResult.markdown (Server.aggregate pages) = None) /\
  (forall pages,
      conforms Schema.OCRResult (json_of_OCRResult (Server.aggregate pages)) = true /\
      member "markdown" (json_of_OCRResult (Server.aggregate pages)) = Some JNull) /\
  (forall j, conforms Schema.StructureResult j = true ->
             exists m, member "markdown" j = Some (JStr m)) /\
  (forall j d,
      conforms Schema.StructureResultResponse j = true ->
      member "structure_result" j = Some d ->
      d <> JNull ->
      exists m, member "markdown" d = Some (JStr m)) /\
  (forall r : StructureResult.t,
      member "markdown" (json_of_StructureResult r) = Some (JStr (StructureResult.markdown r))).
Proof.
  repeat match goal with |- _ /\ _ => split; [reflexivity|] end.
  split.
  { intros pages. split; [apply json_of_OCRResult_conforms | reflexivity]. }
  assert (Hmd : forall j, conforms Schema.StructureResult j = true ->
                          exists m, member "markdown" j = Some (JStr m)).
  { intros j Hc.
    assert (Hf : In (required "markdown" TString) (fields_of Schema.StructureResult))
      by (cbn; auto).
    destruct (conforms_member _ _ _ Hc Hf eq_refl) as [v [Hv Hs]].
    apply conforms_string in Hs as [m ->]. now exists m. }
  split; [exact Hmd|].
  split; [|reflexivity].
  intros j d Hc Hd Hnn.
  assert (Hf : In (required "structure_result" (nullable Schema.StructureResult))
                  (fields_of Schema.StructureResultResponse)) by (cbn; auto 10).
  destruct (conforms_member _ _ _ Hc Hf eq_refl) as [v [Hv Hs]].
  cbn [fname required] in Hv. rewrite Hd in Hv. injection Hv as <-.
  apply conforms_nullable in Hs as [Hs|Hs]; [contradiction|].
  now apply Hmd.
Qed.

Lemma C5_markdown_presence_witness :
  exists m,
    member "markdown"
           (json_of_nullable json_of_StructureResult
                             (StructureResultResponse.structure_result sample_structure))
    = Some (JStr m).
Proof.
  refine (proj1 (proj2 (proj2 (proj2 (proj2 (proj2 (proj2 (proj2 C5_markdown_presence)))))))
            (json_of_StructureResultResponse sample_structure) _ _ _ _).
  - reflexivity.
  - reflexivity.
  - discriminate.
Defined.

(** ** Upload routing *)

(** Whatever the branch, [handleUpload] hands exactly one request to axios,
    and its form holds the file. *)
Lemma handleUpload_single (file : File.t) (mode : Mode) (s : App.State) :
  exists req, snd (App.handleUpload file mode s) = [req] /\ form req = [("file", file)].
Proof.
  unfold App.handleUpload, App.handleUpload_operation.
  destruct mode; [destruct (String.eqb (File.type file) "application/pdf")|];
    eexists; split; reflexivity.
Qed.


(** C3.  [handleUpload] issues exactly one request for an upload, a POST
    carrying the file: to /api/ocr/structure when the mode is structure
    (whatever the file type); otherwise to /api/ocr/pdf when the MIME type
    of the file is application/pdf, and to /api/ocr/image for any other
    file.  In the running application a submit adds this one request to
    the requests sent. *)
Theorem C3_upload_routing (file : File.t) (mode : Mode) (s : App.State) :
  exists req,
    snd (App.handleUpload file mode s) = [req] /\
    method req = POST /\
    form req = [("file", file)] /\
    In (url req) ["/api/ocr/structure"; "/api/ocr/pdf"; "/api/ocr/image"] /\
    (mode = structure -> url req = "/api/ocr/structure") /\
    (mode = ocr -> File.type file = "application/pdf" -> url req = "/api/ocr/pdf") /\
    (mode = ocr -> File.type file <> "application/pdf" -> url req = "/api/ocr/image") /\
    (forall w w',
        App.app w = s ->
        App.step w (App.Submit file mode) = Some w' ->
        App.sent w' = (App.sent w ++ [req])%list) /\
    (forall u,
        FileUpload.selectedFile u = Some file ->
        FileUpload.mode u = mode ->
        FileUpload.submit u s = [req]).
Proof.
  destruct mode.
  - destruct (String.eqb (File.type file) "application/pdf") eqn:Htype.
    + exists (ocrApi.processPdf file).
      assert (Hreq : App.handleUpload file ocr s
                     = (let '(h, req) := useOCR.processPdf file (App.hook s) in
                        (App.mk h (App.refreshHistory s) (App.toasts s), [req]))).
      { unfold App.handleUpload, App.handleUpload_operation. now rewrite Htype. }
      apply String.eqb_eq in Htype.
      repeat split; try (rewrite Hreq; reflexivity); try reflexivity; try discriminate.
      * cbn. auto.
      * intros _ Hne. contradiction.
      * intros w w' <- Hstep. cbn [App.step] in Hstep.
        destruct (useOCR.isLoading (App.hook (App.app w))); [discriminate|].
        rewrite Hreq in Hstep. cbn in Hstep. now injection Hstep as <-.
      * intros u Hsel Hmode. unfold FileUpload.submit, FileUpload.handleSubmit.
        now rewrite Hsel, Hmode, Hreq.
    + exists (ocrApi.processImage file).
      assert (Hreq : App.handleUpload file ocr s
                     = (let '(h, req) := useOCR.processImage file (App.hook s) in
                        (App.mk h (App.refreshHistory s) (App.toasts s), [req]))).
      { unfold App.handleUpload, App.handleUpload_operation. now rewrite Htype. }
      apply String.eqb_neq in Htype.
      repeat split; try (rewrite Hreq; reflexivity); try reflexivity; try discriminate.
      * cbn. auto.
      * intros _ Heq. contradiction.
      * intros w w' <- Hstep. cbn [App.step] in Hstep.
        destruct (useOCR.isLoading (App.hook (App.app w))); [discriminate|].
        rewrite Hreq in Hstep. cbn in Hstep. now injection Hstep as <-.
      * intros u Hsel Hmode. unfold FileUpload.submit, FileUpload.handleSubmit.
        now rewrite Hsel, Hmode, Hreq.
  - exists (ocrApi.analyzeStructure file).
    repeat split; try reflexivity; try discriminate.
    + cbn. auto.
    + intros w w' <- Hstep. cbn [App.step] in Hstep.
      destruct (useOCR.isLoading (App.hook (App.app w))); [discriminate|].
      cbn in Hstep. now injection Hstep as <-.
    + intros u Hsel Hmode. unfold FileUpload.submit, FileUpload.handleSubmit.
      now rewrite Hsel, Hmode.
Qed.

Lemma C3_upload_routing_witness :
  exists req,
    snd (App.handleUpload sample_pdf ocr App.initial) = [req] /\
    url req = "/api/ocr/pdf" /\
    App.sent
      (match App.step App.boot (App.Submit sample_pdf ocr) with
       | Some w' => w'
       | None => App.boot
       end) = [req].
Proof.
  destruct (C3_upload_routing sample_pdf ocr App.initial)
    as [req [Hone [_ [_ [_ [_ [Hpdf [_ [Hrun _]]]]]]]]].
  exists req. split; [exact Hone|]. split.
  - apply Hpdf; reflexivity.
  - apply (Hrun App.boot); reflexivity.
Defined.

(** ** Failed jobs in the result view *)

Lemma isError_failed (a : OCRResultView.Active) :
  OCRResultView.isError a = true <-> OCRResultView.status a = failed.
Proof.
  unfold OCRResultView.isError. destruct (OCRResultView.status a); cbn;
    split; intros H; try reflexivity; discriminate.
Qed.

Lemma or_else_spec (a : option string) (b : string) :
  (a = None -> or_else a b = b) /\
  (a = Some "" -> or_else a b = b) /\
  (forall m, a = Some m -> m <> "" -> or_else a b = m).
Proof.
  repeat split.
  - now intros ->.
  - now intros ->.
  - intros m -> Hm. destruct m; [contradiction | reflexivity].
Qed.

(** C4, as the code has it.  A processing failure is answered with a
    success-status body whose status is failed and whose error_message is
    the cause; axios resolves with that body, and the hook stores it as the
    result (flat operations) or the structure result (structure analysis)
    without touching its own error.  The result view renders the error
    paragraph exactly when the status of the active result is failed; the
    paragraph shows error_message when that is a non-empty string and the
    default text "An error occurred" when it is null or the empty string;
    the content tabs are not rendered for a failed result. *)
Theorem C4_failure_display :
  (forall m cause,
      exists body,
        Server.flat_endpoint m (Server.PipelineFailed cause) = Ok2xx body /\
        OCRResultResponse.status body = failed /\
        OCRResultResponse.error_message body = Some cause /\
        OCRResultResponse.ocr_result body = None) /\
  (forall body : OCRResultResponse.t, axios_settle (Ok2xx body) = Fulfilled body) /\
  (forall o body s s',
      useOCR.resume o (useOCR.FlatReply (axios_settle (Ok2xx body))) s = Some s' ->
      useOCR.result s' = Some body /\ useOCR.error s' = useOCR.error s) /\
  (forall o body s s',
      useOCR.resume o (useOCR.StructureReply (axios_settle (Ok2xx body))) s = Some s' ->
      useOCR.structureResult s' = Some body /\ useOCR.error s' = useOCR.error s) /\
  (forall vm result structureResult a,
      OCRResultView.activeResult result structureResult = Some a ->
      exists v,
        OCRResultView.OCRResult vm result structureResult = Some v /\
        (OCRResultView.error_state v <> None <-> OCRResultView.status a = failed) /\
        (OCRResultView.status a = failed -> OCRResultView.content v = None) /\
        (OCRResultView.status a = failed ->
         OCRResultView.error_message a = None ->
         OCRResultView.error_state v = Some "An error occurred") /\
        (OCRResultView.status a = failed ->
         OCRResultView.error_message a = Some "" ->
         OCRResultView.error_state v = Some "An error occurred") /\
        (forall msg,
            OCRResultView.status a = failed ->
            OCRResultView.error_message a = Some msg ->
            msg <> "" ->
            OCRResultView.error_state v = Some msg)).
Proof.
  split.
  { intros m cause. eexists. repeat split. }
  split; [reflexivity|].
  split.
  { intros o body s s' H. destruct o; cbn in H; try discriminate;
      injection H as <-; split; reflexivity. }
  split.
  { intros o body s s' H. destruct o; cbn in H; try discriminate.
    injection H as <-. split; reflexivity. }
  intros vm result structureResult a Ha.
  unfold OCRResultView.OCRResult. rewrite Ha.
  eexists. split; [reflexivity|]. cbn [OCRResultView.error_state OCRResultView.content].
  pose proof (isError_failed a) as Herr.
  destruct (or_else_spec (OCRResultView.error_message a) "An error occurred")
    as [Hnull [Hblank Hmsg]].
  destruct (OCRResultView.isError a) eqn:E.
  - assert (Hf : OCRResultView.status a = failed) by now apply Herr.
    repeat split; try reflexivity; try discriminate; auto.
    + intros _ Hn. now rewrite Hnull.
    + intros _ Hb. now rewrite Hblank.
    + intros msg _ Hm Hne. now rewrite (Hmsg msg).
  - assert (Hf : OCRResultView.status a <> failed).
    { intros Hf. apply Herr in Hf. discriminate. }
    repeat split; try contradiction.
Qed.

Lemma C4_failure_display_witness :
  exists v,
    OCRResultView.OCRResult OCRResultView.text (Some sample_failed) None = Some v /\
    OCRResultView.error_state v = Some "Could not read the PDF" /\
    OCRResultView.content v = None.
Proof.
  destruct (proj2 (proj2 (proj2 (proj2 C4_failure_display)))
              OCRResultView.text (Some sample_failed) None
              (OCRResultView.mkActive "broken.pdf" (Some "0.3s") failed
                                      (Some "Could not read the PDF"))
              eq_refl)
    as [v [Hv [_ [Hcontent [_ [_ Hmsg]]]]]].
  exists v. split; [exact Hv|]. split.
  - apply Hmsg; [reflexivity | reflexivity | discriminate].
  - apply Hcontent. reflexivity.
Defined.

(** C4 read literally (the paragraph shows error_message unless it is
    null) fails for a failed job whose error_message is the empty string:
    the paragraph shows the default text, not the stored message. *)
Lemma C4_blank_message_counterexample :
  OCRResultResponse.status sample_failed_blank = failed /\
  OCRResultResponse.error_message sample_failed_blank = Some "" /\
  option_map OCRResultView.error_state
             (OCRResultView.OCRResult OCRResultView.text (Some sample_failed_blank) None)
  = Some (Some "An error occurred") /\
  Some "An error occurred" <> OCRResultResponse.error_message sample_failed_blank.
Proof.
  repeat split; try reflexivity. discriminate.
Qed.

(** ** The upload gate *)

Lemma type_accepted_eq (f : File.t) :
  FileUpload.type_accepted f
  = String.eqb (File.type f) "application/x-moz-file"
    || existsb (String.eqb (toLowerCase (File.type f)))
               ["image/png"; "image/jpeg"; "image/webp"; "application/pdf"]
    || existsb (endsWith (toLowerCase (File.name f)))
               [".png"; ".jpg"; ".jpeg"; ".webp"; ".pdf"].
Proof.
  unfold FileUpload.type_accepted, Dropzone.fileAccepted,
    FileUpload.ACCEPTED_IMAGE_TYPES, FileUpload.ACCEPTED_PDF_TYPES.
  cbn [app existsb fst snd].
  change (toLowerCase "image/png") with "image/png".
  change (toLowerCase "image/jpeg") with "image/jpeg".
  change (toLowerCase "image/webp") with "image/webp".
  change (toLowerCase "application/pdf") with "application/pdf".
  change (toLowerCase ".png") with ".png".
  change (toLowerCase ".jpg") with ".jpg".
  change (toLowerCase ".jpeg") with ".jpeg".
  change (toLowerCase ".webp") with ".webp".
  change (toLowerCase ".pdf") with ".pdf".
  generalize (String.eqb (File.type f) "application/x-moz-file") as moz.
  generalize (toLowerCase (File.type f)) as ty.
  generalize (toLowerCase (File.name f)) as nm. intros nm ty moz.
  destruct moz, (String.eqb ty "image/png"), (String.eqb ty "image/jpeg"),
    (String.eqb ty "image/webp"), (String.eqb ty "application/pdf"),
    (endsWith nm ".png"), (endsWith nm ".jpg"), (endsWith nm ".jpeg"),
    (endsWith nm ".webp"), (endsWith nm ".pdf"); reflexivity.
Qed.

Lemma type_accepted_iff (f : File.t) :
  FileUpload.type_accepted f = true <->
  File.type f = "application/x-moz-file"
  \/ In (toLowerCase (File.type f))
        ["image/png"; "image/jpeg"; "image/webp"; "application/pdf"]
  \/ exists ext, In ext [".png"; ".jpg"; ".jpeg"; ".webp"; ".pdf"]
                 /\ endsWith (toLowerCase (File.name f)) ext = true.
Proof.
  rewrite type_accepted_eq, !orb_true_iff, !existsb_exists, String.eqb_eq. split.
  - intros [[Hmoz|[m [Hin Heq]]]|[ext H]].
    + now left.
    + right. left. apply String.eqb_eq in Heq. now subst m.
    + right. right. now exists ext.
  - intros [Hmoz|[Hin|[ext H]]].
    + left. now left.
    + left. right. exists (toLowerCase (File.type f)).
      split; [exact Hin | apply String.eqb_refl].
    + right. now exists ext.
Qed.

(** With the options FileUpload passes, the zone keeps the files of an
    accepted type, whatever their size, and accepts at most one. *)
Lemma dropzone_accepts (files : list File.t) :
  Dropzone.drop (FileUpload.dropzone_options false) files
  = Some (match filter FileUpload.type_accepted files with
          | [f] => [f]
          | _ => []
          end).
Proof.
  unfold Dropzone.drop, FileUpload.dropzone_options.
  cbn [Dropzone.disabled Dropzone.accept Dropzone.minSize Dropzone.maxSize
       Dropzone.multiple Dropzone.maxFiles negb andb orb].
  rewrite (filter_ext _ FileUpload.type_accepted).
  2:{ intros f. unfold Dropzone.fileMatchSize, FileUpload.type_accepted.
      rewrite andb_true_r.
      replace (N.leb 0 (File.size f)) with true
        by (symmetry; apply N.leb_le, N.le_0_l).
      apply andb_true_r. }
  destruct (filter FileUpload.type_accepted files) as [|f [|g rest]]; try reflexivity.
  cbn [List.length].
  replace (1 <? Z.of_nat (S (S (List.length rest)))) with true; [reflexivity|].
  symmetry. apply Z.ltb_lt. lia.
Qed.

Lemma drop_selects (isLoading : bool) (files : list File.t) (s : FileUpload.State)
      (f : File.t) :
  FileUpload.selectedFile (FileUpload.drop isLoading files s) = Some f ->
  FileUpload.selectedFile s = Some f
  \/ (isLoading = false /\ In f files /\ FileUpload.type_accepted f = true
      /\ filter FileUpload.type_accepted files = [f]).
Proof.
  unfold FileUpload.drop. destruct isLoading.
  - cbn. now left.
  - rewrite dropzone_accepts.
    destruct (filter FileUpload.type_accepted files) as [|g [|h rest]] eqn:E;
      cbn [FileUpload.onDrop FileUpload.selectedFile]; try (now left).
    intros H. injection H as <-. right.
    assert (Hin : In g (filter FileUpload.type_accepted files)) by (rewrite E; now left).
    apply filter_In in Hin as [Hin Hacc]. auto.
Qed.

Lemma reachable_selection_accepted (s : FileUpload.State) :
  FileUpload.reachable s ->
  forall f, FileUpload.selectedFile s = Some f -> FileUpload.type_accepted f = true.
Proof.
  induction 1 as [|isLoading files s Hs IH|s Hs IH|m s Hs IH]; intros f Hsel.
  - discriminate.
  - apply drop_selects in Hsel as [Hold|[_ [_ [Hacc _]]]]; auto.
  - discriminate.
  - cbn in Hsel. auto.
Qed.

Lemma submit_requests (s : FileUpload.State) (a : App.State) (req : Request) :
  In req (FileUpload.submit s a) ->
  exists f, FileUpload.selectedFile s = Some f /\ form req = [("file", f)].
Proof.
  unfold FileUpload.submit, FileUpload.handleSubmit.
  destruct (FileUpload.selectedFile s) as [f|]; [|intros []].
  destruct (handleUpload_single f (FileUpload.mode s) a) as [r [Hone Hform]].
  rewrite Hone. intros [<-|[]]. now exists f.
Qed.

Lemma drop_event_selects (sel : Dropzone.Selector) (isLoading : bool)
      (event_files : list File.t) (s : FileUpload.State) (f : File.t) :
  FileUpload.selectedFile (FileUpload.drop_event sel isLoading event_files s) = Some f ->
  FileUpload.selectedFile s = Some f
  \/ (isLoading = false /\ In f (sel event_files) /\ FileUpload.type_accepted f = true
      /\ filter FileUpload.type_accepted (sel event_files) = [f]).
Proof. exact (drop_selects isLoading (sel event_files) s f). Qed.

(** C7, as the code has it.  Before any processing request is issued, the
    upload widget enforces the file type and the single-file limit on the
    files its file-selector step delivers: a file becomes the selection
    only if it is the one delivered file of a drop that passes the type
    test of react-dropzone, that is, whose MIME type is image/png,
    image/jpeg, image/webp or application/pdf, or whose name ends in .png,
    .jpg, .jpeg, .webp or .pdf, or whose type is application/x-moz-file
    (which react-dropzone lets through whatever [accept] says); and every
    request a submit sends carries such a file.  The widget sets no size
    limit: the 50MB maximum appears in its hint text only, and a delivered
    file that passes the type test is selected whatever its size. *)
Theorem C7_upload_gate :
  (forall f,
      FileUpload.type_accepted f = true <->
      File.type f = "application/x-moz-file"
      \/ In (toLowerCase (File.type f))
            ["image/png"; "image/jpeg"; "image/webp"; "application/pdf"]
      \/ exists ext, In ext [".png"; ".jpg"; ".jpeg"; ".webp"; ".pdf"]
                     /\ endsWith (toLowerCase (File.name f)) ext = true) /\
  (forall getFilesFromEvent isLoading event_files s f,
      FileUpload.selectedFile
        (FileUpload.drop_event getFilesFromEvent isLoading event_files s) = Some f ->
      FileUpload.selectedFile s = Some f
      \/ (isLoading = false /\ In f (getFilesFromEvent event_files)
          /\ FileUpload.type_accepted f = true
          /\ filter FileUpload.type_accepted (getFilesFromEvent event_files) = [f])) /\
  (forall s a req,
      FileUpload.reachable s ->
      In req (FileUpload.submit s a) ->
      exists f, form req = [("file", f)] /\ FileUpload.type_accepted f = true) /\
  (forall isLoading,
      Dropzone.maxSize (FileUpload.dropzone_options isLoading) = None /\
      Dropzone.minSize (FileUpload.dropzone_options isLoading) = 0%N) /\
  (forall getFilesFromEvent event_files f s,
      getFilesFromEvent event_files = [f] ->
      FileUpload.type_accepted f = true ->
      FileUpload.selectedFile (FileUpload.drop_event getFilesFromEvent false event_files s)
      = Some f).
Proof.
  split; [exact type_accepted_iff|].
  split; [exact drop_event_selects|].
  split.
  { intros s a req Hs Hin.
    destruct (submit_requests _ _ _ Hin) as [f [Hsel Hform]].
    exists f. split; [exact Hform|].
    now apply (reachable_selection_accepted s Hs). }
  split; [split; reflexivity|].
  intros sel event_files f s Hsel Hacc.
  unfold FileUpload.drop_event, Dropzone.on_event. rewrite Hsel, dropzone_accepts.
  cbn [filter]. now rewrite Hacc.
Qed.

Lemma C7_upload_gate_witness :
  FileUpload.selectedFile
    (FileUpload.drop_event (fun files => files) false [sample_png] FileUpload.initial)
  = Some sample_png.
Proof.
  apply (proj2 (proj2 (proj2 (proj2 C7_upload_gate))) (fun files => files));
    reflexivity.
Defined.

(** C7 as stated fails for size: a PNG of 60 MB, above the 50MB of the
    hint, dropped on the idle widget becomes the selection, and submitting
    it sends the POST to /api/ocr/image. *)
Lemma C7_oversized_file_counterexample :
  (FileUpload.hinted_max_size < File.size sample_large_png)%N /\
  FileUpload.selectedFile (FileUpload.drop false [sample_large_png] FileUpload.initial)
  = Some sample_large_png /\
  FileUpload.submit (FileUpload.drop false [sample_large_png] FileUpload.initial) App.initial
  = [ocrApi.processImage sample_large_png] /\
  url (ocrApi.processImage sample_large_png) = "/api/ocr/image".
Proof.
  repeat split; reflexivity.
Qed.

(** ** History pagination *)

Lemma insert_job_length (j : HistoryListItem.t) (l : list HistoryListItem.t) :
  List.length (Server.insert_job j l) = S (List.length l).
Proof.
  induction l as [|x l IH]; cbn; [reflexivity|].
  destruct (Server.newer_or_same j x); cbn; [reflexivity | now rewrite IH].
Qed.

Lemma newest_first_length (jobs : list HistoryListItem.t) :
  List.length (Server.newest_first jobs) = List.length jobs.
Proof.
  induction jobs as [|j jobs IH]; [reflexivity|].
  change (Server.newest_first (j :: jobs))
    with (Server.insert_job j (Server.newest_first jobs)).
  rewrite insert_job_length, IH. reflexivity.
Qed.

Lemma history_list_length (jobs : list HistoryListItem.t) (page page_size : Z) :
  List.length (HistoryListResponse.items (Server.history_list jobs page page_size))
  = Nat.min (Z.to_nat page_size)
            (List.length jobs - Z.to_nat ((page - 1) * page_size)).
Proof.
  unfold Server.history_list. cbn [HistoryListResponse.items].
  now rewrite length_firstn, length_skipn, newest_first_length.
Qed.

(** [ceil_div a b] is the least integer [q] with [a <= q * b]. *)
Lemma ceil_div_spec (a b : Z) :
  0 < b -> (ceil_div a b - 1) * b < a <= ceil_div a b * b.
Proof.
  intros Hb. unfold ceil_div.
  pose proof (Z.div_mod (- a) b ltac:(lia)) as Hdm.
  pose proof (Z.mod_pos_bound (- a) b Hb) as Hm.
  nia.
Qed.

Lemma fetchHistory_request (s : History.State) :
  snd (History.fetchHistory s)
  = mkRequest GET "/api/history"
              [("page", toString (History.page s)); ("page_size", "10")]
              [] "application/json" None.
Proof. reflexivity. Qed.

Lemma start_fetch_sent (w : History.Running) :
  History.sent (History.start_fetch w)
  = (History.sent w ++ [snd (History.fetchHistory (History.view w))])%list.
Proof. reflexivity. Qed.

Lemma history_requests (w : History.Running) :
  History.reachable w ->
  forall req, In req (History.sent w) ->
              method req = GET /\ url req = "/api/history"
              /\ exists p, query req = [("page", toString p); ("page_size", "10")].
Proof.
  assert (Hfetch : forall w0 : History.Running,
             (forall req, In req (History.sent w0) ->
                          method req = GET /\ url req = "/api/history"
                          /\ exists p, query req = [("page", toString p); ("page_size", "10")]) ->
             forall req, In req (History.sent (History.start_fetch w0)) ->
                         method req = GET /\ url req = "/api/history"
                         /\ exists p, query req = [("page", toString p); ("page_size", "10")]).
  { intros w0 H0 req. rewrite start_fetch_sent. intros Hin.
    apply in_app_or in Hin as [Hin|[<-|[]]]; [now apply H0|].
    rewrite fetchHistory_request. cbn. repeat split. now eexists. }
  induction 1 as [|w e w' Hw IH Hstep].
  - apply Hfetch. intros req [].
  - destruct e; cbn [History.step] in Hstep.
    + injection Hstep as <-. now apply Hfetch.
    + destruct (History.awaiting w); [discriminate|]. injection Hstep as <-. exact IH.
    + destruct (History.pagination (History.view w)) as [bar|]; [|discriminate].
      destruct (History.previous_disabled bar); [discriminate|].
      injection Hstep as <-. unfold History.turn.
      destruct (strict_eq _ _); [exact IH|]. apply Hfetch. exact IH.
    + destruct (History.pagination (History.view w)) as [bar|]; [|discriminate].
      destruct (History.next_disabled bar); [discriminate|].
      injection Hstep as <-. unfold History.turn.
      destruct (strict_eq _ _); [exact IH|]. apply Hfetch. exact IH.
Qed.

(** C8.  Listing 25 stored jobs with a page size of 10 gives 10 items on
    page 1, 10 on page 2 and 5 on page 3 (together the 25 jobs, newest
    first), and every page reports total = 25.  The history view asks for
    its listing with page_size = 10 in every request it sends, starting
    with the request for page 1 it sends when mounted; a listing that
    arrives is the listing it holds; and the number of pages it computes
    and prints in the pagination bar, which is rendered whenever total
    exceeds a positive page_size, is the ceiling of total divided by
    page_size of the listing held.  Browsing the 25 jobs, the view shows
    "Page 1 of 3", "Page 2 of 3" and "Page 3 of 3" over the three
    listings, having asked for pages 1, 2 and 3 with page_size = 10. *)
Theorem C8_history_pagination :
  (forall jobs,
      List.length jobs = 25%nat ->
      List.length (HistoryListResponse.items (Server.history_list jobs 1 10)) = 10%nat /\
      List.length (HistoryListResponse.items (Server.history_list jobs 2 10)) = 10%nat /\
      List.length (HistoryListResponse.items (Server.history_list jobs 3 10)) = 5%nat /\
      (HistoryListResponse.items (Server.history_list jobs 1 10)
       ++ HistoryListResponse.items (Server.history_list jobs 2 10)
       ++ HistoryListResponse.items (Server.history_list jobs 3 10))%list
      = Server.newest_first jobs /\
      (forall p, HistoryListResponse.total (Server.history_list jobs p 10) = 25) /\
      (forall p s, History.history s = Some (Server.history_list jobs p 10) ->
                   History.totalPages s = Fin 3)) /\
  (forall s,
      snd (History.fetchHistory s)
      = historyApi.list (Some (History.page s)) (Some (Fin 10)) None /\
      url (snd (History.fetchHistory s)) = "/api/history" /\
      query (snd (History.fetchHistory s))
      = [("page", toString (History.page s)); ("page_size", "10")]) /\
  (forall w req,
      History.reachable w ->
      In req (History.sent w) ->
      url req = "/api/history" /\ In ("page_size", "10") (query req)) /\
  (forall s h,
      History.history s = Some h ->
      History.totalPages s
      = Math_ceil_div (HistoryListResponse.total h) (HistoryListResponse.page_size h)) /\
  (forall a b,
      0 < b ->
      Math_ceil_div a b = Fin (ceil_div a b) /\
      (ceil_div a b - 1) * b < a <= ceil_div a b * b) /\
  (forall s bar,
      History.pagination s = Some bar ->
      History.label_total bar = History.totalPages s) /\
  (History.awaiting History.mount = 1%nat /\
   History.sent History.mount = [historyApi.list (Some (Fin 1)) (Some (Fin 10)) None]) /\
  (forall w data,
      History.awaiting w <> 0%nat ->
      exists w',
        History.step w (History.Loaded (Fulfilled data)) = Some w' /\
        History.history (History.view w') = Some data /\
        History.page (History.view w') = History.page (History.view w) /\
        History.totalPages (History.view w')
        = Math_ceil_div (HistoryListResponse.total data)
                        (HistoryListResponse.page_size data)) /\
  (forall s h,
      History.history s = Some h ->
      0 < HistoryListResponse.page_size h ->
      HistoryListResponse.page_size h < HistoryListResponse.total h ->
      exists bar,
        History.pagination s = Some bar /\
        History.label_page bar = History.page s /\
        History.label_total bar
        = Fin (ceil_div (HistoryListResponse.total h) (HistoryListResponse.page_size h))) /\
  (forall jobs,
      List.length jobs = 25%nat ->
      let listing := fun p => Server.history_list jobs p 10 in
      let shown := fun w =>
        (History.history (History.view w),
         option_map (fun bar => (History.label_page bar, History.label_total bar))
                    (History.pagination (History.view w)),
         map query (History.sent w)) in
      option_map shown
                 (History.run History.mount [History.Loaded (Fulfilled (listing 1))])
      = Some (Some (listing 1), Some (Fin 1, Fin 3),
              [[("page", "1"); ("page_size", "10")]]) /\
      option_map shown
                 (History.run History.mount
                    [History.Loaded (Fulfilled (listing 1)); History.Next;
                     History.Loaded (Fulfilled (listing 2))])
      = Some (Some (listing 2), Some (Fin 2, Fin 3),
              [[("page", "1"); ("page_size", "10")];
               [("page", "2"); ("page_size", "10")]]) /\
      option_map shown
                 (History.run History.mount
                    [History.Loaded (Fulfilled (listing 1)); History.Next;
                     History.Loaded (Fulfilled (listing 2)); History.Next;
                     History.Loaded (Fulfilled (listing 3))])
      = Some (Some (listing 3), Some (Fin 3, Fin 3),
              [[("page", "1"); ("page_size", "10")];
               [("page", "2"); ("page_size", "10")];
               [("page", "3"); ("page_size", "10")]])).
Proof.
  split.
  { intros jobs Hlen.
    rewrite !history_list_length, Hlen.
    repeat (split; [reflexivity|]).
    split; [|split].
    - unfold Server.history_list. cbn [HistoryListResponse.items].
      pose proof (newest_first_length jobs) as Hl. rewrite Hlen in Hl.
      set (l := Server.newest_first jobs) in *.
      change (Z.to_nat ((1 - 1) * 10)) with 0%nat.
      change (Z.to_nat ((2 - 1) * 10)) with 10%nat.
      change (Z.to_nat ((3 - 1) * 10)) with 20%nat.
      change (Z.to_nat 10) with 10%nat.
      change (skipn 0 l) with l.
      rewrite (firstn_all2 (n := 10) (skipn 20 l)) by (rewrite length_skipn; lia).
      change 20%nat with (10 + 10)%nat. rewrite <- skipn_skipn.
      now rewrite !firstn_skipn.
    - intros p. unfold Server.history_list. cbn [HistoryListResponse.total].
      now rewrite Hlen.
    - intros p s Hh. unfold History.totalPages. rewrite Hh.
      unfold Server.history_list.
      cbn [HistoryListResponse.total HistoryListResponse.page_size].
      now rewrite Hlen. }
  split.
  { intros s. repeat split. }
  split.
  { intros w req Hw Hin.
    destruct (history_requests w Hw req Hin) as [_ [Hurl [p Hq]]].
    split; [exact Hurl|]. rewrite Hq. cbn. auto. }
  split.
  { intros s h Hh. unfold History.totalPages. now rewrite Hh. }
  split.
  { intros a b Hb. split; [|now apply ceil_div_spec].
    unfold Math_ceil_div. destruct (b =? 0) eqn:E; [|reflexivity].
    apply Z.eqb_eq in E. lia. }
  split.
  { intros s bar. unfold History.pagination.
    destruct (gt (History.totalPages s) 1); [|discriminate].
    intros H. now injection H as <-. }
  split; [split; reflexivity|].
  split.
  { intros w data Hpending. cbn [History.step].
    destruct (History.awaiting w) as [|n]; [now elim Hpending|].
    eexists. split; [reflexivity|]. repeat split. }
  split.
  { intros s h Hh Hps Hmore.
    assert (Htp : History.totalPages s
                  = Fin (ceil_div (HistoryListResponse.total h)
                                  (HistoryListResponse.page_size h))).
    { unfold History.totalPages, Math_ceil_div. rewrite Hh.
      now replace (HistoryListResponse.page_size h =? 0) with false
        by (symmetry; apply Z.eqb_neq; lia). }
    pose proof (ceil_div_spec (HistoryListResponse.total h)
                              (HistoryListResponse.page_size h) Hps) as Hc.
    unfold History.pagination. rewrite Htp. cbn [gt].
    replace (1 <? ceil_div (HistoryListResponse.total h) (HistoryListResponse.page_size h))
      with true by (symmetry; apply Z.ltb_lt; nia).
    eexists. split; [reflexivity|]. split; reflexivity. }
  intros jobs Hlen. cbv zeta. unfold Server.history_list. rewrite Hlen.
  repeat split.
Qed.

Lemma C8_history_pagination_witness :
  map (fun p => List.length (HistoryListResponse.items (Server.history_list sample_jobs p 10)))
      [1; 2; 3]
  = [10%nat; 10%nat; 5%nat] /\
  option_map
    (fun w => (option_map (fun h => List.length (HistoryListResponse.items h))
                          (History.history (History.view w)),
               option_map History.label_total (History.pagination (History.view w)),
               map query (History.sent w)))
    (History.run History.mount
       [History.Loaded (Fulfilled (Server.history_list sample_jobs 1 10)); History.Next;
        History.Loaded (Fulfilled (Server.history_list sample_jobs 2 10)); History.Next;
        History.Loaded (Fulfilled (Server.history_list sample_jobs 3 10))])
  = Some (Some 5%nat, Some (Fin 3),
          [[("page", "1"); ("page_size", "10")];
           [("page", "2"); ("page_size", "10")];
           [("page", "3"); ("page_size", "10")]]).
Proof.
  destruct (proj1 C8_history_pagination sample_jobs eq_refl) as [H1 [H2 [H3 _]]].
  split.
  - cbn [map]. rewrite H1, H2, H3. reflexivity.
  - destruct (proj2 (proj2 (proj2 (proj2 (proj2 (proj2 (proj2 (proj2 (proj2
                C8_history_pagination)))))))) sample_jobs eq_refl) as [_ [_ Hrun]].
    destruct (History.run History.mount
                [History.Loaded (Fulfilled (Server.history_list sample_jobs 1 10));
                 History.Next;
                 History.Loaded (Fulfilled (Server.history_list sample_jobs 2 10));
                 History.Next;
                 History.Loaded (Fulfilled (Server.history_list sample_jobs 3 10))])
      as [w|]; [|discriminate].
    cbn [option_map] in *. injection Hrun as Hh Hbar Hsent.
    rewrite Hh, Hsent. cbn [option_map]. rewrite H3.
    destruct (History.pagination (History.view w)) as [bar|]; [|discriminate].
    cbn [option_map] in *. injection Hbar as _ Ht. now rewrite Ht.
Defined.

(** ** The payloads of the hook *)

(** Every operation starts by clearing error, result and structureResult
    and hands one request to axios; on success its continuation sets
    exactly one of the two payloads and leaves the other alone; [reset]
    clears everything. *)
Lemma useOCR_operations (o : useOCR.Operation) (s : useOCR.State) :
  let s1 := fst (useOCR.call o s) in
  (useOCR.isLoading s1 = true /\ useOCR.error s1 = None /\
   useOCR.result s1 = None /\ useOCR.structureResult s1 = None) /\
  (forall body s2,
      useOCR.resume o (useOCR.FlatReply (Fulfilled body)) s = Some s2 ->
      useOCR.result s2 = Some body /\
      useOCR.structureResult s2 = useOCR.structureResult s /\
      useOCR.isLoading s2 = false) /\
  (forall body s2,
      useOCR.resume o (useOCR.StructureReply (Fulfilled body)) s = Some s2 ->
      useOCR.structureResult s2 = Some body /\
      useOCR.result s2 = useOCR.result s /\
      useOCR.isLoading s2 = false) /\
  useOCR.reset s = useOCR.initial.
Proof.
  split; [destruct o; repeat split|].
  split; [|split; [|reflexivity]].
  - intros body s2 H. destruct o; cbn in H; try discriminate;
      injection H as <-; repeat split.
  - intros body s2 H. destruct o; cbn in H; try discriminate;
      injection H as <-; repeat split.
Qed.

(** While operations do not overlap (a new one is started only when none
    is in flight), the two payloads are never populated together. *)
Lemma payloads_exclusive_without_overlap (w w' : App.Running) (e : App.Event) :
  useOCR.both_populated (App.hook (App.app w)) = false ->
  (List.length (App.inflight w) <= 1)%nat ->
  (App.inflight w <> [] ->
   useOCR.result (App.hook (App.app w)) = None /\
   useOCR.structureResult (App.hook (App.app w)) = None) ->
  (match e with
   | App.Submit _ _ | App.SelectHistory _ => App.inflight w = []
   | _ => True
   end) ->
  App.step w e = Some w' ->
  useOCR.both_populated (App.hook (App.app w')) = false /\
  (List.length (App.inflight w') <= 1)%nat /\
  (App.inflight w' <> [] ->
   useOCR.result (App.hook (App.app w')) = None /\
   useOCR.structureResult (App.hook (App.app w')) = None).
Proof.
  intros Hex Hlen Hclean Hseq Hstep.
  destruct e as [file mode|id| |o r]; cbn [App.step] in Hstep.
  - destruct (useOCR.isLoading _); [discriminate|].
    rewrite Hseq in Hstep.
    destruct mode; [destruct (String.eqb (File.type file) "application/pdf") eqn:E|];
      unfold App.handleUpload, App.handleUpload_operation in Hstep;
      rewrite ?E in Hstep; cbn in Hstep; injection Hstep as <-; cbn; auto.
  - rewrite Hseq in Hstep. cbn in Hstep. injection Hstep as <-. cbn. auto.
  - destruct (App.hasResult (App.app w)); [|discriminate].
    injection Hstep as <-. cbn. repeat split; auto.
  - destruct (App.inflight w) as [|x [|y rest]] eqn:Hin.
    + discriminate.
    + destruct (Hclean ltac:(discriminate)) as [Hr Hs].
      cbn [App.remove_first] in Hstep.
      destruct (useOCR.Operation_eqb o x); [|discriminate].
      destruct (useOCR.resume o r (App.hook (App.app w))) as [h|] eqn:Hres; [|discriminate].
      assert (Hh : useOCR.both_populated h = false).
      { unfold useOCR.both_populated.
        destruct o, r as [[body|err]|[body|err]]; cbn in Hres; try discriminate;
          injection Hres as <-; cbn; rewrite ?Hr, ?Hs; try reflexivity;
          now destruct (useOCR.result _), (useOCR.structureResult _). }
      destruct (App.is_upload o); injection Hstep as <-; cbn;
        (split; [exact Hh | split; [lia | intros H; now elim H]]).
    + cbn in Hlen. lia.
Qed.

(** C9 at the failing trace.  A structure analysis is submitted and, while
    its request is in flight, a row of the history is clicked (rows stay
    clickable while loading).  Each call clears the state; then the answer
    for the history row sets result and the answer for the structure
    analysis sets structureResult: both are populated at once. *)
Theorem C9_overlapping_operations_populate_both :
  exists w,
    App.run App.boot overlapping_trace = Some w /\
    useOCR.result (App.hook (App.app w)) = Some sample_completed /\
    useOCR.structureResult (App.hook (App.app w)) = Some sample_structure /\
    useOCR.both_populated (App.hook (App.app w)) = true /\
    App.inflight w = [].
Proof.
  eexists. split; [reflexivity|]. repeat split.
Qed.

(** ** The page of the history view *)

Lemma start_fetch_view (w : History.Running) :
  History.page (History.view (History.start_fetch w)) = History.page (History.view w) /\
  History.history (History.view (History.start_fetch w)) = History.history (History.view w).
Proof. split; reflexivity. Qed.

Lemma turn_view (p : Z) (w : History.Running) :
  History.page (History.view (History.turn (Fin p) w)) = Fin p
  \/ History.turn (Fin p) w = w.
Proof.
  unfold History.turn. destruct (strict_eq (Fin p) (History.page (History.view w))).
  - now right.
  - left. reflexivity.
Qed.

Lemma turn_history (p : JsNum) (w : History.Running) :
  History.history (History.view (History.turn p w)) = History.history (History.view w).
Proof.
  unfold History.turn. destruct (strict_eq p (History.page (History.view w))); reflexivity.
Qed.

Lemma pagination_shown (s : History.State) (bar : History.Pagination) :
  History.pagination s = Some bar ->
  gt (History.totalPages s) 1 = true /\
  bar = History.mkPagination (strict_eq (History.page s) (Fin 1)) (History.page s)
                             (History.totalPages s)
                             (strict_eq (History.page s) (History.totalPages s)).
Proof.
  unfold History.pagination. destruct (gt (History.totalPages s) 1); [|discriminate].
  intros H. injection H as <-. split; reflexivity.
Qed.

(** A click on Previous or Next from a finite page at least 1 leads to a
    finite page at least 1. *)
Lemma click_keeps_page_positive (w w' : History.Running) (e : History.Event) (p : Z) :
  History.page (History.view w) = Fin p ->
  1 <= p ->
  History.step w e = Some w' ->
  exists p', History.page (History.view w') = Fin p' /\ 1 <= p'.
Proof.
  intros Hp Hge Hstep. destruct e; cbn [History.step] in Hstep.
  - injection Hstep as <-. exists p. now split.
  - destruct (History.awaiting w); [discriminate|]. injection Hstep as <-.
    exists p. split; [|exact Hge]. destruct out; exact Hp.
  - destruct (History.pagination (History.view w)) as [bar|]; [|discriminate].
    destruct (History.previous_disabled bar); [discriminate|].
    injection Hstep as <-. rewrite Hp.
    change (History.previous_page (Fin p)) with (Fin (Z.max 1 (p + -1))).
    destruct (turn_view (Z.max 1 (p + -1)) w) as [H|H].
    + eexists. split; [exact H | lia].
    + rewrite H. exists p. now split.
  - destruct (History.pagination (History.view w)) as [bar|] eqn:Hbar; [|discriminate].
    destruct (History.next_disabled bar); [discriminate|].
    injection Hstep as <-. rewrite Hp.
    apply pagination_shown in Hbar as [Hgt _].
    destruct (History.totalPages (History.view w)) as [t| | |]; try discriminate.
    + change (History.next_page (Fin t) (Fin p)) with (Fin (Z.min t (p + 1))).
      apply Z.ltb_lt in Hgt.
      destruct (turn_view (Z.min t (p + 1)) w) as [H|H].
      * eexists. split; [exact H | lia].
      * rewrite H. exists p. now split.
    + change (History.next_page Infinity (Fin p)) with (Fin (p + 1)).
      destruct (turn_view (p + 1) w) as [H|H].
      * eexists. split; [exact H | lia].
      * rewrite H. exists p. now split.
Qed.

Lemma page_positive (w : History.Running) :
  History.reachable w ->
  exists p, History.page (History.view w) = Fin p /\ 1 <= p.
Proof.
  induction 1 as [|w e w' Hw [p [Hp Hge]] Hstep].
  - exists 1. split; [reflexivity | lia].
  - exact (click_keeps_page_positive w w' e p Hp Hge Hstep).
Qed.

Lemma run_reachable (es : list History.Event) :
  forall w w', History.reachable w -> History.run w es = Some w' -> History.reachable w'.
Proof.
  induction es as [|e es IH]; intros w w' Hw Hrun; cbn [History.run] in Hrun.
  - now injection Hrun as <-.
  - destruct (History.step w e) as [w1|] eqn:Hstep; [|discriminate].
    apply (IH w1 w'); [|exact Hrun]. exact (History.reach_step w e w1 Hw Hstep).
Qed.

(** C10, as the code has it.  The page of the history view is always a
    finite number at least 1.  The Previous handler takes the maximum of 1
    and page minus 1, the Next handler the minimum of totalPages and page
    plus 1; Previous is disabled on page 1 and Next on page totalPages; so
    a click made from a page between 1 and totalPages lands between 1 and
    the totalPages of the same listing.  (The bar itself is shown only when
    totalPages exceeds 1.) *)
Theorem C10_page_bounds :
  (forall w, History.reachable w ->
             exists p, History.page (History.view w) = Fin p /\ 1 <= p) /\
  (forall p, History.previous_page (Fin p) = Fin (Z.max 1 (p - 1))) /\
  (forall t p, History.next_page (Fin t) (Fin p) = Fin (Z.min t (p + 1))) /\
  (forall s bar t p,
      History.pagination s = Some bar ->
      History.totalPages s = Fin t ->
      History.page s = Fin p ->
      1 < t /\
      (History.previous_disabled bar = true <-> p = 1) /\
      (History.next_disabled bar = true <-> p = t)) /\
  (forall w w' e t p,
      History.totalPages (History.view w) = Fin t ->
      History.page (History.view w) = Fin p ->
      1 <= p <= t ->
      e = History.Previous \/ e = History.Next ->
      History.step w e = Some w' ->
      History.totalPages (History.view w') = Fin t /\
      exists p', History.page (History.view w') = Fin p' /\ 1 <= p' <= t).
Proof.
  split; [exact page_positive|].
  split; [reflexivity|].
  split; [reflexivity|].
  split.
  { intros s bar t p Hbar Ht Hp.
    apply pagination_shown in Hbar as [Hgt ->]. rewrite Ht in Hgt. cbn in Hgt.
    apply Z.ltb_lt in Hgt. rewrite Hp, Ht. cbn.
    split; [exact Hgt|]. split; apply Z.eqb_eq. }
  intros w w' e t p Ht Hp Hrange He Hstep.
  assert (Htot : forall q, History.totalPages (History.view (History.turn q w)) = Fin t).
  { intros q. unfold History.totalPages in *. now rewrite turn_history. }
  destruct He as [-> | ->]; cbn [History.step] in Hstep;
    (destruct (History.pagination (History.view w)) as [bar|]; [|discriminate]).
  - destruct (History.previous_disabled bar); [discriminate|].
    injection Hstep as <-. split; [apply Htot|]. rewrite Hp.
    change (History.previous_page (Fin p)) with (Fin (Z.max 1 (p + -1))).
    destruct (turn_view (Z.max 1 (p + -1)) w) as [H|H].
    + eexists. split; [exact H | lia].
    + rewrite H. exists p. now split.
  - destruct (History.next_disabled bar); [discriminate|].
    injection Hstep as <-. split; [apply Htot|]. rewrite Hp, Ht.
    change (History.next_page (Fin t) (Fin p)) with (Fin (Z.min t (p + 1))).
    destruct (turn_view (Z.min t (p + 1)) w) as [H|H].
    + eexists. split; [exact H | lia].
    + rewrite H. exists p. now split.
Qed.

Lemma C10_page_bounds_witness :
  exists p,
    History.page
      (History.view
         (match History.run History.mount browsing_trace with
          | Some w => w
          | None => History.mount
          end)) = Fin p /\ 1 <= p.
Proof.
  apply (proj1 C10_page_bounds).
  apply (run_reachable browsing_trace History.mount);
    [apply History.reach_mount | reflexivity].
Defined.

(** C10 as stated fails once a listing is fetched: for an empty history
    the listing has total 0, so the ceiling of total over page_size is 0,
    while the page is 1. *)
Lemma C10_empty_listing_counterexample :
  option_map (fun w => (History.history (History.view w),
                        History.page (History.view w),
                        History.totalPages (History.view w)))
             (History.run History.mount [History.Loaded (Fulfilled sample_empty_listing)])
  = Some (Some sample_empty_listing, Fin 1, Fin 0) /\
  ceil_div (HistoryListResponse.total sample_empty_listing)
           (HistoryListResponse.page_size sample_empty_listing) = 0 /\
  0 < 1.
Proof.
  repeat split.
Qed.

(** The page is not clamped when the listing shrinks under it: after the
    only row of page 2 is deleted the view stays on page 2 of 1, with no
    rows and no pagination bar. *)
Lemma page_not_clamped_after_shrink :
  option_map (fun w => (History.page (History.view w),
                        History.totalPages (History.view w),
                        History.pagination (History.view w),
                        option_map HistoryListResponse.items
                                   (History.history (History.view w))))
             (History.run History.mount shrinking_trace)
  = Some (Fin 2, Fin 1, None, Some []).
Proof. reflexivity. Qed.

(* ================================================================== *)
(** * Further properties of the hook and of App *)
(* ================================================================== *)

(** X1.  An operation of the hook that is called and then answered, with
    nothing in between, ends with isLoading false and exactly one of
    result, structureResult and error set: a fulfilled call sets the
    payload of its kind and leaves error null; a rejected call sets error
    (the message of the Error, or the fallback text of the operation for
    a thrown value that is no Error) and leaves both payloads null. *)
Lemma X1_call_then_answer (o : useOCR.Operation) (r : useOCR.Reply) (s s' : useOCR.State) :
  useOCR.resume o r (fst (useOCR.call o s)) = Some s' ->
  useOCR.isLoading s' = false /\
  match r with
  | useOCR.FlatReply (Fulfilled body) =>
      useOCR.result s' = Some body /\ useOCR.structureResult s' = None
      /\ useOCR.error s' = None
  | useOCR.StructureReply (Fulfilled body) =>
      useOCR.structureResult s' = Some body /\ useOCR.result s' = None
      /\ useOCR.error s' = None
  | useOCR.FlatReply (Rejected err) | useOCR.StructureReply (Rejected err) =>
      useOCR.result s' = None /\ useOCR.structureResult s' = None /\
      useOCR.error s'
      = Some (useOCR.message_of err
                match o with
                | useOCR.ProcessImage _ => "Failed to process image"
                | useOCR.ProcessPdf _ => "Failed to process PDF"
                | useOCR.AnalyzeStructure _ => "Failed to analyze structure"
                | useOCR.LoadFromHistory _ => "Failed to load history"
                end)
  end.
Proof.
  intros H.
  destruct o, r as [[body|err]|[body|err]]; cbn in H; try discriminate;
    injection H as <-; repeat split.
Qed.

Lemma X1_call_then_answer_witness :
  exists s',
    useOCR.resume (useOCR.ProcessPdf sample_pdf)
                  (useOCR.FlatReply (axios_settle (BadStatus 413)))
                  (fst (useOCR.call (useOCR.ProcessPdf sample_pdf) useOCR.initial))
    = Some s' /\
    useOCR.isLoading s' = false /\
    useOCR.result s' = None /\
    useOCR.error s' = Some "Request failed with status code 413".
Proof.
  eexists. split; [reflexivity|].
  destruct (X1_call_then_answer (useOCR.ProcessPdf sample_pdf)
              (useOCR.FlatReply (axios_settle (BadStatus 413)))
              useOCR.initial _ eq_refl) as [Hload [Hres [_ Herr]]].
  split; [exact Hload|]. split; [exact Hres | exact Herr].
Defined.



Lemma File_eqb_refl (f : File.t) : File.eqb f f = true.
Proof.
  unfold File.eqb. now rewrite !String.eqb_refl, N.eqb_refl.
Qed.

Lemma Operation_eqb_refl (o : useOCR.Operation) : useOCR.Operation_eqb o o = true.
Proof. destruct o; cbn; auto using File_eqb_refl, String.eqb_refl. Qed.

Lemma remove_first_in (o : useOCR.Operation) (l : list useOCR.Operation) :
  In o l -> exists rest, App.remove_first o l = Some rest.
Proof.
  induction l as [|x l IH]; [intros []|].
  intros Hin. cbn [App.remove_first].
  destruct (useOCR.Operation_eqb o x) eqn:E; [now eexists|].
  destruct Hin as [->|Hin].
  - now rewrite Operation_eqb_refl in E.
  - destruct (IH Hin) as [rest ->]. now eexists.
Qed.

(** X3.  Closing the result card resets the four values of the hook but
    cancels nothing: the requests in flight stay in flight, and when one
    of them is answered afterwards its body is stored and the card is
    back. *)
Lemma X3_close_does_not_cancel (w w' : App.Running) :
  App.step w App.CloseResult = Some w' ->
  App.hook (App.app w') = useOCR.initial /\
  App.inflight w' = App.inflight w /\
  App.sent w' = App.sent w /\
  (forall o body,
      In o (App.inflight w) ->
      (forall f, o <> useOCR.AnalyzeStructure f) ->
      exists w'',
        App.step w' (App.Answer o (useOCR.FlatReply (Fulfilled body))) = Some w'' /\
        useOCR.result (App.hook (App.app w'')) = Some body /\
        App.hasResult (App.app w'') = true) /\
  (forall f body,
      In (useOCR.AnalyzeStructure f) (App.inflight w) ->
      exists w'',
        App.step w' (App.Answer (useOCR.AnalyzeStructure f)
                                (useOCR.StructureReply (Fulfilled body))) = Some w'' /\
        useOCR.structureResult (App.hook (App.app w'')) = Some body /\
        App.hasResult (App.app w'') = true).
Proof.
  cbn [App.step]. destruct (App.hasResult (App.app w)); [|discriminate].
  intros H. injection H as <-. cbn [App.app App.inflight App.sent App.handleReset App.hook].
  repeat split.
  - intros o body Hin Hflat. destruct (remove_first_in o _ Hin) as [rest Hrest].
    cbn [App.step App.app App.inflight]. rewrite Hrest.
    destruct o as [f|f|f|i]; try (now elim (Hflat f)); cbn; eexists; repeat split.
  - intros f body Hin. destruct (remove_first_in _ _ Hin) as [rest Hrest].
    cbn [App.step App.app App.inflight]. rewrite Hrest.
    cbn. eexists; repeat split.
Qed.

Lemma X3_close_does_not_cancel_witness :
  exists w w' w'',
    App.run App.boot two_rows_trace = Some w /\
    App.step w App.CloseResult = Some w' /\
    App.step w' (App.Answer (useOCR.LoadFromHistory "c9d1")
                            (useOCR.FlatReply (Fulfilled sample_failed))) = Some w'' /\
    useOCR.result (App.hook (App.app w'')) = Some sample_failed.
Proof.
  eexists. eexists.
  assert (Hclose : App.step
                     (match App.run App.boot two_rows_trace with
                      | Some w => w
                      | None => App.boot
                      end) App.CloseResult
                   = Some (App.mkRunning
                             (App.mk useOCR.initial 0 [])
                             [useOCR.LoadFromHistory "c9d1"]
                             [ocrApi.getResult "c9d2"; ocrApi.getResult "c9d1"]))
    by reflexivity.
  destruct (proj1 (proj2 (proj2 (proj2 (X3_close_does_not_cancel _ _ Hclose))))
              (useOCR.LoadFromHistory "c9d1") sample_failed
              (or_introl eq_refl) ltac:(discriminate)) as [w'' [Hstep [Hres _]]].
  exists w''. split; [reflexivity|]. split; [exact Hclose|]. split; [exact Hstep | exact Hres].
Defined.

(** Induction over the events of a run. *)
Lemma App_run_invariant (P : App.Running -> Prop) :
  (forall w e w', P w -> App.step w e = Some w' -> P w') ->
  forall es w w', P w -> App.run w es = Some w' -> P w'.
Proof.
  intros Hstep es. induction es as [|e es IH]; intros w w' Hw Hrun; cbn [App.run] in Hrun.
  - now injection Hrun as <-.
  - destruct (App.step w e) as [w1|] eqn:E; [|discriminate].
    exact (IH w1 w' (Hstep w e w1 Hw E) Hrun).
Qed.

(** The state of App after one event, by kind of event. *)
Lemma App_step_cases (w w' : App.Running) (e : App.Event) :
  App.step w e = Some w' ->
  match e with
  | App.Submit file mode =>
      useOCR.isLoading (App.hook (App.app w)) = false /\
      w' = App.mkRunning
             (App.mk (fst (useOCR.call (App.handleUpload_operation file mode)
                                       (App.hook (App.app w))))
                     (App.refreshHistory (App.app w)) (App.toasts (App.app w)))
             (App.inflight w ++ [App.handleUpload_operation file mode])
             (App.sent w ++ [snd (useOCR.call (App.handleUpload_operation file mode)
                                              (App.hook (App.app w)))])
  | App.SelectHistory id =>
      w' = App.mkRunning
             (App.mk (fst (useOCR.loadFromHistory id (App.hook (App.app w))))
                     (App.refreshHistory (App.app w)) (App.toasts (App.app w)))
             (App.inflight w ++ [useOCR.LoadFromHistory id])
             (App.sent w ++ [ocrApi.getResult id])
  | App.CloseResult =>
      w' = App.mkRunning (App.handleReset (App.app w)) (App.inflight w) (App.sent w)
  | App.Answer o r =>
      exists rest h,
        App.remove_first o (App.inflight w) = Some rest /\
        useOCR.resume o r (App.hook (App.app w)) = Some h /\
        w' = App.mkRunning
               (if App.is_upload o
                then App.mk h (App.refreshHistory (App.app w) + 1)
                            (App.toasts (App.app w)
                             ++ [App.toast_success "OCR processing completed!"])
                else App.mk h (App.refreshHistory (App.app w)) (App.toasts (App.app w)))
               rest (App.sent w)
  end.
Proof.
  destruct e as [file mode|id| |o r]; cbn [App.step]; intros H.
  - destruct (useOCR.isLoading (App.hook (App.app w))); [discriminate|].
    split; [reflexivity|].
    unfold App.handleUpload in H.
    destruct (useOCR.call (App.handleUpload_operation file mode) (App.hook (App.app w)))
      as [h req]. now injection H as <-.
  - cbn in H. now injection H as <-.
  - destruct (App.hasResult (App.app w)); [|discriminate]. now injection H as <-.
  - destruct (App.remove_first o (App.inflight w)) as [rest|]; [|discriminate].
    destruct (useOCR.resume o r (App.hook (App.app w))) as [h|]; [|discriminate].
    exists rest, h. repeat split. injection H as <-.
    destruct (App.is_upload o); reflexivity.
Qed.

Lemma resume_not_loading (o : useOCR.Operation) (r : useOCR.Reply) (s h : useOCR.State) :
  useOCR.resume o r s = Some h -> useOCR.isLoading h = false.
Proof.
  destruct o, r as [[b|e]|[b|e]]; cbn; intros H; try discriminate;
    injection H as <-; reflexivity.
Qed.

(** X4.  However a run of the application goes, every toast raised by
    [handleUpload] is the success toast, and refreshHistory equals their
    number: the hook operations catch their own errors, so the failure
    toast of [handleUpload] is never raised.  In particular the answer to
    an upload that was rejected still raises the success toast and bumps
    refreshHistory, while the hook records the error. *)
Lemma X4_upload_always_toasts_success :
  (forall es w,
      App.run App.boot es = Some w ->
      Forall (fun t => t = App.toast_success "OCR processing completed!")
             (App.toasts (App.app w)) /\
      App.refreshHistory (App.app w) = Z.of_nat (List.length (App.toasts (App.app w)))) /\
  (forall w w' o r err,
      App.is_upload o = true ->
      r = useOCR.FlatReply (Rejected err) \/ r = useOCR.StructureReply (Rejected err) ->
      App.step w (App.Answer o r) = Some w' ->
      App.toasts (App.app w')
      = (App.toasts (App.app w) ++ [App.toast_success "OCR processing completed!"])%list /\
      App.refreshHistory (App.app w') = App.refreshHistory (App.app w) + 1 /\
      exists msg, useOCR.error (App.hook (App.app w')) = Some msg).
Proof.
  split.
  - intros es w.
    apply (App_run_invariant
             (fun w => Forall (fun t => t = App.toast_success "OCR processing completed!")
                              (App.toasts (App.app w)) /\
                       App.refreshHistory (App.app w)
                       = Z.of_nat (List.length (App.toasts (App.app w))))).
    + intros w0 e w1 [Hall Hn] Hstep. apply App_step_cases in Hstep.
      destruct e as [file mode|id| |o r].
      * destruct Hstep as [_ ->]. now split.
      * subst w1. now split.
      * subst w1. now split.
      * destruct Hstep as [rest [h [_ [_ ->]]]].
        destruct (App.is_upload o); cbn [App.app App.toasts App.refreshHistory];
          [|now split].
        split.
        -- apply Forall_app. split; [exact Hall|]. now constructor.
        -- rewrite length_app, Hn. cbn [List.length]. lia.
    + split; [constructor | reflexivity].
  - intros w w' o r err Hup Hr Hstep. apply App_step_cases in Hstep.
    destruct Hstep as [rest [h [_ [Hres ->]]]]. rewrite Hup.
    cbn [App.app App.toasts App.refreshHistory App.hook].
    repeat split.
    destruct Hr as [-> | ->]; destruct o; cbn in Hres; try discriminate;
      injection Hres as <-; eexists; reflexivity.
Qed.

Lemma X4_upload_always_toasts_success_witness :
  exists w',
    App.step (App.mkRunning (App.mk (fst (useOCR.processPdf sample_pdf useOCR.initial)) 0 [])
                            [useOCR.ProcessPdf sample_pdf] [ocrApi.processPdf sample_pdf])
             (App.Answer (useOCR.ProcessPdf sample_pdf)
                         (useOCR.FlatReply (Rejected (ErrorObject "Network Error"))))
    = Some w' /\
    App.toasts (App.app w') = [App.toast_success "OCR processing completed!"] /\
    App.refreshHistory (App.app w') = 1.
Proof.
  eexists. split; [reflexivity|].
  destruct (proj2 X4_upload_always_toasts_success
              (App.mkRunning
                 (App.mk (fst (useOCR.processPdf sample_pdf useOCR.initial)) 0 [])
                 [useOCR.ProcessPdf sample_pdf] [ocrApi.processPdf sample_pdf])
              _
              (useOCR.ProcessPdf sample_pdf)
              (useOCR.FlatReply (Rejected (ErrorObject "Network Error")))
              (ErrorObject "Network Error") eq_refl (or_introl eq_refl) eq_refl)
    as [Ht [Hn _]].
  split; [exact Ht | exact Hn].
Defined.

(** X5.  In every state a run of the application reaches, isLoading is
    false whenever no request is in flight: the spinner never outlives the
    last answer. *)
Lemma X5_idle_means_not_loading (es : list App.Event) (w : App.Running) :
  App.run App.boot es = Some w ->
  App.inflight w = [] ->
  useOCR.isLoading (App.hook (App.app w)) = false.
Proof.
  apply (App_run_invariant
           (fun w => App.inflight w = [] -> useOCR.isLoading (App.hook (App.app w)) = false)).
  - intros w0 e w1 _ Hstep. apply App_step_cases in Hstep.
    destruct e as [file mode|id| |o r].
    + destruct Hstep as [_ ->]. cbn [App.inflight]. intros H.
      now apply app_eq_nil in H as [_ H].
    + subst w1. cbn [App.inflight]. intros H. now apply app_eq_nil in H as [_ H].
    + subst w1. reflexivity.
    + destruct Hstep as [rest [h [_ [Hres ->]]]]. intros _.
      apply resume_not_loading in Hres.
      destruct (App.is_upload o); exact Hres.
  - reflexivity.
Qed.

Lemma X5_idle_means_not_loading_witness :
  useOCR.isLoading
    (App.hook (App.app (match App.run App.boot overlapping_trace with
                        | Some w => w
                        | None => App.boot
                        end))) = false.
Proof.
  apply (X5_idle_means_not_loading overlapping_trace); reflexivity.
Defined.

(** X6.  Every request App and the hook send is either a multipart POST
    of exactly one part named file to /api/ocr/structure, /api/ocr/pdf or
    /api/ocr/image, or a GET of /api/ocr/result/<id> without body; only
    the POST to /api/ocr/pdf sets a timeout (300000 ms).  They never send
    a DELETE and never call an /api/history endpoint. *)
Lemma X6_request_repertoire (es : list App.Event) (w : App.Running) (req : Request) :
  App.run App.boot es = Some w ->
  In req (App.sent w) ->
  (method req = POST /\
   In (url req) ["/api/ocr/structure"; "/api/ocr/pdf"; "/api/ocr/image"] /\
   (exists file, form req = [("file", file)]) /\
   content_type req = "multipart/form-data" /\
   timeout req = (if String.eqb (url req) "/api/ocr/pdf" then Some 300000 else None))
  \/
  (method req = GET /\
   (exists id, url req = "/api/ocr/result/" ++ id) /\
   form req = [] /\ timeout req = None).
Proof.
  intros Hrun. revert req.
  apply (App_run_invariant
           (fun w => forall req, In req (App.sent w) -> _) ) with (es := es) (w := App.boot);
    [| intros req [] | exact Hrun].
  intros w0 e w1 IH Hstep req. apply App_step_cases in Hstep.
  destruct e as [file mode|id| |o r].
  - destruct Hstep as [_ ->]. cbn [App.sent]. intros Hin.
    apply in_app_or in Hin as [Hin|[<-|[]]]; [now apply IH|]. left.
    unfold App.handleUpload_operation.
    destruct mode; [destruct (String.eqb (File.type file) "application/pdf")|];
      cbn; repeat split; auto; now eexists.
  - subst w1. cbn [App.sent]. intros Hin.
    apply in_app_or in Hin as [Hin|[<-|[]]]; [now apply IH|]. right.
    repeat split. now exists id.
  - subst w1. exact (IH req).
  - destruct Hstep as [rest [h [_ [_ ->]]]]. exact (IH req).
Qed.

Lemma X6_request_repertoire_witness :
  Forall (fun req => method req <> DELETE)
         (App.sent (match App.run App.boot overlapping_trace with
                    | Some w => w
                    | None => App.boot
                    end)).
Proof.
  apply Forall_forall. intros req Hin.
  destruct (X6_request_repertoire overlapping_trace _ req eq_refl Hin)
    as [[Hm _]|[Hm _]]; rewrite Hm; discriminate.
Defined.

(* ================================================================== *)
(** * Further properties of the result view *)
(* ================================================================== *)

(** X7.  When the flat result is present and carries its payload, the
    result view ignores the structure result altogether: it renders the
    same tree whatever structureResult holds. *)
Lemma X7_flat_result_shadows (vm : OCRResultView.ViewMode) (r : OCRResultResponse.t)
      (d : OCRResult.t) (sr : option StructureResultResponse.t) :
  OCRResultResponse.ocr_result r = Some d ->
  OCRResultView.OCRResult vm (Some r) sr = OCRResultView.OCRResult vm (Some r) None.
Proof.
  intros Hd.
  assert (Hdata : forall x, OCRResultView.ocrData (Some r) x
                            = Some (OCRResultView.FlatData d)).
  { intros x. unfold OCRResultView.ocrData. cbn [option_map]. now rewrite Hd. }
  assert (Htext : forall x, OCRResultView.getTextContent (Some r) x = OCRResult.text d).
  { intros x. unfold OCRResultView.getTextContent. cbn [option_map]. now rewrite Hd. }
  unfold OCRResultView.OCRResult, OCRResultView.getDisplayContent.
  rewrite (Hdata sr), (Hdata None), (Htext sr), (Htext None).
  destruct sr; reflexivity.
Qed.

Lemma X7_flat_result_shadows_witness :
  OCRResultView.OCRResult OCRResultView.markdown (Some sample_completed)
                          (Some sample_structure)
  = OCRResultView.OCRResult OCRResultView.markdown (Some sample_completed) None.
Proof.
  apply (X7_flat_result_shadows _ _ (Server.aggregate sample_pages)). reflexivity.
Defined.

(** X8.  When the flat result is present without payload and is not
    failed, and the structure result carries a payload, the view mixes the
    two: heading and status come from the flat result, the tabs show the
    structure payload (the block contents joined by blank lines on the
    Text tab, its markdown on the Markdown tab). *)
Lemma X8_mixed_rendering (vm : OCRResultView.ViewMode) (r : OCRResultResponse.t)
      (sr : StructureResultResponse.t) (d : StructureResult.t) :
  OCRResultResponse.ocr_result r = None ->
  OCRResultResponse.status r <> failed ->
  StructureResultResponse.structure_result sr = Some d ->
  exists v,
    OCRResultView.OCRResult vm (Some r) (Some sr) = Some v /\
    OCRResultView.heading v = OCRResultResponse.filename r /\
    OCRResultView.error_state v = None /\
    OCRResultView.content v
    = Some ([OCRResultView.text; OCRResultView.markdown; OCRResultView.json],
            match vm with
            | OCRResultView.text =>
                OCRResultView.Plain
                  (String.concat (LF ++ LF)
                                 (map StructureBlock.content (StructureResult.blocks d)))
            | OCRResultView.markdown =>
                OCRResultView.Plain (StructureResult.markdown d)
            | OCRResultView.json =>
                OCRResultView.Stringified (Some (OCRResultView.StructureData d))
            end).
Proof.
  intros Hnone Hst Hd.
  unfold OCRResultView.OCRResult, OCRResultView.activeResult, OCRResultView.ocrData,
    OCRResultView.getDisplayContent, OCRResultView.getTextContent,
    OCRResultView.getMarkdownContent, OCRResultView.ocrData, OCRResultView.isError.
  cbn [option_map OCRResultView.status]. rewrite Hnone, Hd.
  destruct (OCRResultResponse.status r) eqn:E; try (now elim Hst);
    cbn [ProcessingStatus_eqb negb]; eexists; (split; [reflexivity|]);
    repeat split; cbn [OCRResultView.content];
    destruct vm; try reflexivity;
    destruct (StructureResult.markdown d); reflexivity.
Qed.

Lemma X8_mixed_rendering_witness :
  exists v,
    OCRResultView.OCRResult OCRResultView.markdown
      (Some (OCRResultResponse.mk "c9d3" "queued.png" "image" "2024-05-01T10:13:00" None
                                  pending None None))
      (Some sample_structure) = Some v /\
    OCRResultView.heading v = "queued.png" /\
    OCRResultView.content v
    = Some ([OCRResultView.text; OCRResultView.markdown; OCRResultView.json],
            OCRResultView.Plain "# Quarterly report").
Proof.
  destruct (X8_mixed_rendering OCRResultView.markdown
              (OCRResultResponse.mk "c9d3" "queued.png" "image" "2024-05-01T10:13:00" None
                                    pending None None)
              sample_structure _ eq_refl ltac:(discriminate) eq_refl)
    as [v [Hv [Hh [_ Hc]]]].
  exists v. split; [exact Hv|]. split; [exact Hh | exact Hc].
Defined.

(** X9.  The card of the result view is blank below its heading (neither
    the error paragraph nor the tabs) exactly when the active result is not
    failed and neither response carries a payload, as for a job that is
    still pending or processing. *)
Lemma X9_blank_card (vm : OCRResultView.ViewMode) (result : option OCRResultResponse.t)
      (structureResult : option StructureResultResponse.t)
      (a : OCRResultView.Active) (v : OCRResultView.Rendered) :
  OCRResultView.activeResult result structureResult = Some a ->
  OCRResultView.OCRResult vm result structureResult = Some v ->
  (OCRResultView.error_state v = None /\ OCRResultView.content v = None
   <->
   OCRResultView.status a <> failed /\ OCRResultView.ocrData result structureResult = None).
Proof.
  intros Ha Hv. unfold OCRResultView.OCRResult in Hv. rewrite Ha in Hv.
  injection Hv as <-. cbn [OCRResultView.error_state OCRResultView.content].
  pose proof (isError_failed a) as Herr.
  destruct (OCRResultView.isError a) eqn:E; cbn [negb].
  - split.
    + intros [H _]. discriminate.
    + intros [H _]. elim H. now apply Herr.
  - assert (Hnf : OCRResultView.status a <> failed).
    { intros Hf. apply Herr in Hf. discriminate. }
    destruct (OCRResultView.ocrData result structureResult) as [d|].
    + split; [intros [_ H]; discriminate | intros [_ H]; discriminate].
    + split; auto.
Qed.

Lemma X9_blank_card_witness :
  OCRResultView.status
    (OCRResultView.mkActive "queued.png" None processing None) <> failed /\
  OCRResultView.ocrData
    (Some (OCRResultResponse.mk "c9d4" "queued.png" "image" "2024-05-01T10:14:00" None
                                processing None None)) None = None.
Proof.
  apply (X9_blank_card OCRResultView.text
           (Some (OCRResultResponse.mk "c9d4" "queued.png" "image" "2024-05-01T10:14:00"
                                       None processing None None))
           None
           (OCRResultView.mkActive "queued.png" None processing None)
           (OCRResultView.mkRendered "queued.png" "" None None)
           eq_refl eq_refl).
  split; reflexivity.
Defined.

(** X10.  App mounts the result view exactly when the view has something
    to render: hasResult holds if and only if the component does not
    return null, so the guard in App and the null return of the component
    agree. *)
Lemma X10_result_guard (vm : OCRResultView.ViewMode) (s : App.State) :
  (App.hasResult s = true <->
   OCRResultView.OCRResult vm (useOCR.result (App.hook s))
                           (useOCR.structureResult (App.hook s)) <> None) /\
  AppView.result_section vm s
  = OCRResultView.OCRResult vm (useOCR.result (App.hook s))
                            (useOCR.structureResult (App.hook s)).
Proof.
  unfold AppView.result_section, App.hasResult, OCRResultView.OCRResult,
    OCRResultView.activeResult.
  destruct (useOCR.result (App.hook s)) as [r|],
           (useOCR.structureResult (App.hook s)) as [sr|];
    (split; [split; [discriminate || (intros; discriminate) | try reflexivity] | reflexivity]).
  intros H. now elim H.
Qed.

(* ================================================================== *)
(** * Further properties of the upload widget *)
(* ================================================================== *)

Lemma drop_event_reachable (sel : Dropzone.Selector) (isLoading : bool)
      (event_files : list File.t) (s : FileUpload.State) :
  FileUpload.reachable s ->
  FileUpload.reachable (FileUpload.drop_event sel isLoading event_files s).
Proof. exact (FileUpload.reach_drop isLoading (sel event_files) s). Qed.

(** X11.  A drop changes the widget only when the application is not
    loading and exactly one of the files delivered by the file-selector
    step passes the type test of react-dropzone: that file, as delivered,
    becomes the selection and the mode is kept.  Any other drop (no
    delivered file passes, two or more pass, or any drop while loading)
    leaves the state as it was, so an earlier selection survives it. *)
Lemma X11_drop_outcomes (getFilesFromEvent : Dropzone.Selector) (isLoading : bool)
      (event_files : list File.t) (s : FileUpload.State) :
  (isLoading = true
   \/ List.length (filter FileUpload.type_accepted (getFilesFromEvent event_files)) <> 1%nat ->
   FileUpload.drop_event getFilesFromEvent isLoading event_files s = s) /\
  (forall f,
      isLoading = false ->
      filter FileUpload.type_accepted (getFilesFromEvent event_files) = [f] ->
      FileUpload.drop_event getFilesFromEvent isLoading event_files s
      = FileUpload.mk (Some f) (FileUpload.mode s)).
Proof.
  unfold FileUpload.drop_event, Dropzone.on_event.
  generalize (getFilesFromEvent event_files) as files. intros files.
  split.
  - intros [-> | Hlen]; [reflexivity|].
    destruct isLoading; [reflexivity|].
    rewrite dropzone_accepts.
    destruct (filter FileUpload.type_accepted files) as [|f [|g rest]]; try reflexivity.
    now elim Hlen.
  - intros f -> Hf. rewrite dropzone_accepts, Hf. reflexivity.
Qed.

Lemma X11_drop_outcomes_witness :
  FileUpload.drop_event (fun files => files) false [sample_png; sample_pdf]
                        (FileUpload.mk (Some sample_large_png) ocr)
  = FileUpload.mk (Some sample_large_png) ocr /\
  FileUpload.drop_event (fun files => files) false [sample_txt; sample_pdf]
                        (FileUpload.mk (Some sample_large_png) ocr)
  = FileUpload.mk (Some sample_pdf) ocr.
Proof.
  split.
  - apply (proj1 (X11_drop_outcomes (fun files => files) false [sample_png; sample_pdf]
                                    (FileUpload.mk (Some sample_large_png) ocr))).
    right. cbn. discriminate.
  - exact (proj2 (X11_drop_outcomes (fun files => files) false [sample_txt; sample_pdf]
                                    (FileUpload.mk (Some sample_large_png) ocr))
                 sample_pdf eq_refl eq_refl).
Defined.

Lemma drop_mode (isLoading : bool) (files : list File.t) (s : FileUpload.State) :
  FileUpload.mode (FileUpload.drop isLoading files s) = FileUpload.mode s.
Proof.
  unfold FileUpload.drop.
  destruct (Dropzone.drop (FileUpload.dropzone_options isLoading) files) as [[|f rest]|];
    reflexivity.
Qed.

Lemma drop_after_setMode (isLoading : bool) (files : list File.t) (m : Mode)
      (s : FileUpload.State) :
  FileUpload.drop isLoading files (FileUpload.setMode m s)
  = FileUpload.setMode m (FileUpload.drop isLoading files s).
Proof.
  unfold FileUpload.drop.
  destruct (Dropzone.drop (FileUpload.dropzone_options isLoading) files) as [[|f rest]|];
    reflexivity.
Qed.

(** X12.  The mode chosen with the radio buttons sticks: dropping another
    file or clearing the selection never changes it, so a submit uploads
    the file selected last with the mode chosen last, in whichever order
    the two were set; after a clear a submit does nothing until a new file
    is selected. *)
Lemma X12_mode_sticks (isLoading : bool) (files : list File.t) (m : Mode)
      (s : FileUpload.State) (a : App.State) :
  FileUpload.mode (FileUpload.drop isLoading files s) = FileUpload.mode s /\
  FileUpload.mode (FileUpload.handleClear s) = FileUpload.mode s /\
  FileUpload.handleSubmit (FileUpload.drop isLoading files (FileUpload.setMode m s))
  = FileUpload.handleSubmit (FileUpload.setMode m (FileUpload.drop isLoading files s)) /\
  FileUpload.handleSubmit (FileUpload.setMode m s)
  = option_map (fun f => (f, m)) (FileUpload.selectedFile s) /\
  FileUpload.handleSubmit (FileUpload.handleClear s) = None /\
  FileUpload.submit (FileUpload.handleClear s) a = [] /\
  FileUpload.mode (FileUpload.drop isLoading files (FileUpload.handleClear (FileUpload.setMode m s)))
  = m.
Proof.
  split; [apply drop_mode|].
  split; [reflexivity|].
  split; [now rewrite drop_after_setMode|].
  split.
  { unfold FileUpload.handleSubmit. cbn. now destruct (FileUpload.selectedFile s). }
  split; [reflexivity|].
  split; [reflexivity|].
  now rewrite drop_mode.
Qed.

(** X13.  For a selected file in OCR mode, the icon of the widget and the
    endpoint of the upload agree: the PDF icon is shown exactly when the
    submit goes to /api/ocr/pdf, the image icon exactly when it goes to
    /api/ocr/image, and both follow the MIME type the selected file
    carries (application/pdf or not).  In structure mode the submit goes to
    /api/ocr/structure whichever icon is shown. *)
Lemma X13_icon_and_endpoint (f : File.t) (s : FileUpload.State) (a : App.State) :
  FileUpload.selectedFile s = Some f ->
  (FileUpload.isPdf s = true <-> File.type f = "application/pdf") /\
  (FileUpload.mode s = ocr ->
   (FileUpload.isPdf s = true <-> FileUpload.submit s a = [ocrApi.processPdf f]) /\
   (FileUpload.isPdf s = false <-> FileUpload.submit s a = [ocrApi.processImage f])) /\
  (FileUpload.mode s = structure ->
   FileUpload.submit s a = [ocrApi.analyzeStructure f]).
Proof.
  intros Hsel.
  unfold FileUpload.isPdf, FileUpload.submit, FileUpload.handleSubmit, App.handleUpload,
    App.handleUpload_operation.
  rewrite Hsel. split; [apply String.eqb_eq|]. split.
  - intros ->.
    destruct (String.eqb (File.type f) "application/pdf"); cbn;
      repeat split; try reflexivity; discriminate.
  - intros ->. reflexivity.
Qed.

Lemma X13_icon_and_endpoint_witness :
  FileUpload.isPdf (FileUpload.mk (Some sample_pdf) ocr) = true /\
  FileUpload.submit (FileUpload.mk (Some sample_pdf) ocr) App.initial
  = [ocrApi.processPdf sample_pdf].
Proof.
  destruct (X13_icon_and_endpoint sample_pdf (FileUpload.mk (Some sample_pdf) ocr)
                                  App.initial eq_refl) as [Htype [Hocr _]].
  assert (Hpdf : FileUpload.isPdf (FileUpload.mk (Some sample_pdf) ocr) = true)
    by (apply Htype; reflexivity).
  split; [exact Hpdf|]. now apply (proj1 (Hocr eq_refl)).
Defined.

(* ================================================================== *)
(** * Further properties of the API client and of the history view *)
(* ================================================================== *)

(** X14.  [historyApi.list] always asks GET /api/history with page and
    page_size first, in this order, defaulting to 1 and 20; a status
    parameter is sent exactly when a non-empty status was given, with that
    value: an empty status is left out like a missing one. *)
Lemma X14_history_query (page pageSize : option JsNum) (status : option string) :
  let req := historyApi.list page pageSize status in
  method req = GET /\ url req = "/api/history" /\ form req = [] /\
  firstn 2 (query req)
  = [("page", toString (match page with Some p => p | None => Fin 1 end));
     ("page_size", toString (match pageSize with Some p => p | None => Fin 20 end))] /\
  (forall v, In ("status", v) (query req) <-> status = Some v /\ v <> "") /\
  query (historyApi.list None None None) = [("page", "1"); ("page_size", "20")] /\
  query (historyApi.list page pageSize (Some "")) = query (historyApi.list page pageSize None).
Proof.
  cbv zeta.
  split; [reflexivity|]. split; [reflexivity|]. split; [reflexivity|].
  split; [destruct status as [[|c r]|]; reflexivity|].
  split; [|split; reflexivity].
  intros v. split.
  - destruct status as [[|c r]|]; cbn; intros [Hin|[Hin|Hin]];
      try discriminate; try contradiction.
    destruct Hin as [Hin|[]]. injection Hin as <-. split; [reflexivity | discriminate].
  - intros [-> Hne]. destruct v as [|c r]; [contradiction|]. cbn. auto.
Qed.

Lemma X14_history_query_witness :
  In ("status", "failed") (query (historyApi.list (Some (Fin 2)) None (Some "failed"))).
Proof.
  apply (proj1 (proj2 (proj2 (proj2 (proj2
           (X14_history_query (Some (Fin 2)) None (Some "failed"))))))).
  split; [reflexivity | discriminate].
Defined.

(** X15.  Deleting from the history (one row, or all rows): a declined
    confirmation sends nothing and changes nothing; a confirmed one sends
    exactly one DELETE (to /api/history/<id>, or to /api/history) and
    leaves the view untouched: the row is not removed locally.  When the
    DELETE succeeds the listing is fetched again with page_size 10 for the
    page that was shown when the button was clicked; when it fails an
    alert is raised and nothing else happens.  Neither outcome changes the
    page or the listing held. *)
Lemma X15_delete_handlers (id : string) (w : History.Running) (captured : JsNum)
      (out : Settled unit) :
  HistoryActions.handleDelete false id w = (w, None) /\
  HistoryActions.handleDeleteAll false w = (w, None) /\
  (let '(w1, page1) := HistoryActions.handleDelete true id w in
   History.view w1 = History.view w /\
   History.sent w1
   = (History.sent w
      ++ [mkRequest DELETE ("/api/history/" ++ id) [] [] "application/json" None])%list /\
   page1 = Some (History.page (History.view w))) /\
  (let '(w1, page1) := HistoryActions.handleDeleteAll true w in
   History.view w1 = History.view w /\
   History.sent w1
   = (History.sent w ++ [mkRequest DELETE "/api/history" [] [] "application/json" None])%list /\
   page1 = Some (History.page (History.view w))) /\
  (forall w2 alerts,
      HistoryActions.handleDelete_then captured out w = (w2, alerts)
      \/ HistoryActions.handleDeleteAll_then captured out w = (w2, alerts) ->
      History.page (History.view w2) = History.page (History.view w) /\
      History.history (History.view w2) = History.history (History.view w) /\
      match out with
      | Fulfilled _ =>
          alerts = [] /\
          History.sent w2
          = (History.sent w
             ++ [mkRequest GET "/api/history"
                           [("page", toString captured); ("page_size", "10")]
                           [] "application/json" None])%list /\
          History.isLoading (History.view w2) = true /\
          History.error (History.view w2) = None
      | Rejected _ =>
          w2 = w /\
          (alerts = ["Failed to delete"] \/ alerts = ["Failed to delete all history"])
      end) /\
  HistoryActions.fetchHistory_of (History.page (History.view w)) w = History.start_fetch w.
Proof.
  repeat split; try reflexivity.
  - destruct H as [H|H]; destruct out; cbn in H; now injection H as <- <-.
  - destruct H as [H|H]; destruct out; cbn in H; now injection H as <- <-.
  - destruct out as [u|e]; intros.
    + destruct H as [H|H]; cbn in H; injection H as <- <-; repeat split.
    + destruct H as [H|H]; cbn in H; injection H as <- <-; split; auto.
Qed.

Lemma X15_delete_handlers_witness :
  History.page
    (History.view
       (fst (HistoryActions.handleDelete_then (Fin 2) (Fulfilled tt) History.mount)))
  = Fin 1 /\
  map query
      (History.sent
         (fst (HistoryActions.handleDelete_then (Fin 2) (Fulfilled tt) History.mount)))
  = [[("page", "1"); ("page_size", "10")]; [("page", "2"); ("page_size", "10")]].
Proof.
  destruct (proj2 (proj2 (proj2 (proj2
             (X15_delete_handlers "7f3a" History.mount (Fin 2) (Fulfilled tt)))))) as [H _].
  destruct (H _ _ (or_introl eq_refl)) as [Hpage [_ [_ [Hsent _]]]].
  split; [exact Hpage|]. exact (f_equal (map query) Hsent).
Defined.

Lemma pagination_of (s : History.State) (t p : Z) :
  History.totalPages s = Fin t ->
  History.page s = Fin p ->
  1 < t ->
  History.pagination s
  = Some (History.mkPagination (p =? 1) (Fin p) (Fin t) (p =? t)).
Proof.
  intros Ht Hp Hgt. unfold History.pagination. rewrite Ht, Hp. cbn [gt strict_eq].
  now replace (1 <? t) with true by (symmetry; apply Z.ltb_lt; exact Hgt).
Qed.

Lemma turn_moves (p' : Z) (w : History.Running) (p : Z) :
  History.page (History.view w) = Fin p ->
  p' <> p ->
  History.turn (Fin p') w
  = History.mkRunning
      (History.mk (History.history (History.view w)) true None (Fin p'))
      (S (History.awaiting w))
      (History.sent w ++ [historyApi.list (Some (Fin p')) (Some (Fin 10)) None]).
Proof.
  intros Hp Hne. unfold History.turn. rewrite Hp. cbn [strict_eq].
  replace (p' =? p) with false by (symmetry; apply Z.eqb_neq; exact Hne).
  reflexivity.
Qed.

(** X16.  From a page below the last one, Next followed by Previous comes
    back to the same page: both clicks are offered, the first moves to
    page + 1, the second back to page, and each sends one listing request
    for the page it moves to. *)
Lemma X16_next_then_previous (w : History.Running) (t p : Z) :
  History.totalPages (History.view w) = Fin t ->
  History.page (History.view w) = Fin p ->
  1 <= p < t ->
  exists w1 w2,
    History.step w History.Next = Some w1 /\
    History.page (History.view w1) = Fin (p + 1) /\
    History.step w1 History.Previous = Some w2 /\
    History.page (History.view w2) = Fin p /\
    History.history (History.view w2) = History.history (History.view w) /\
    History.sent w2
    = (History.sent w
       ++ [historyApi.list (Some (Fin (p + 1))) (Some (Fin 10)) None;
           historyApi.list (Some (Fin p)) (Some (Fin 10)) None])%list.
Proof.
  intros Ht Hp Hrange.
  assert (Hnext : History.step w History.Next = Some (History.turn (Fin (p + 1)) w)).
  { cbn [History.step]. rewrite (pagination_of _ t p Ht Hp) by lia.
    cbn [History.next_disabled].
    replace (p =? t) with false by (symmetry; apply Z.eqb_neq; lia).
    rewrite Ht, Hp. unfold History.next_page. cbn [plus Math_min].
    now replace (Z.min t (p + 1)) with (p + 1) by lia. }
  rewrite (turn_moves (p + 1) w p Hp) in Hnext by lia.
  eexists. eexists. split; [exact Hnext|]. split; [reflexivity|].
  match goal with |- History.step ?x _ = _ /\ _ => set (w1 := x) end.
  assert (Ht1 : History.totalPages (History.view w1) = Fin t) by exact Ht.
  assert (Hp1 : History.page (History.view w1) = Fin (p + 1)) by reflexivity.
  assert (Hprev : History.step w1 History.Previous = Some (History.turn (Fin p) w1)).
  { cbn [History.step]. rewrite (pagination_of _ t (p + 1) Ht1 Hp1) by lia.
    cbn [History.previous_disabled].
    replace (p + 1 =? 1) with false by (symmetry; apply Z.eqb_neq; lia).
    rewrite Hp1. unfold History.previous_page. cbn [plus Math_max].
    now replace (Z.max 1 (p + 1 + -1)) with p by lia. }
  rewrite (turn_moves p w1 (p + 1) Hp1) in Hprev by lia.
  split; [exact Hprev|]. split; [reflexivity|]. split; [reflexivity|].
  cbn [History.sent w1]. unfold w1. cbn [History.sent]. now rewrite <- app_assoc.
Qed.

Lemma X16_next_then_previous_witness :
  exists w w1 w2,
    History.run History.mount
                [History.Loaded (Fulfilled (Server.history_list sample_jobs 1 10))] = Some w /\
    History.step w History.Next = Some w1 /\
    History.step w1 History.Previous = Some w2 /\
    History.page (History.view w2) = Fin 1.
Proof.
  eexists.
  destruct (X16_next_then_previous
              (History.mkRunning
                 (History.mk (Some (Server.history_list sample_jobs 1 10)) false None (Fin 1))
                 0 [historyApi.list (Some (Fin 1)) (Some (Fin 10)) None])
              3 1 eq_refl eq_refl ltac:(lia))
    as [w1 [w2 [Hn [_ [Hp [Hpage _]]]]]].
  exists w1, w2. split; [reflexivity|]. split; [exact Hn|]. split; [exact Hp | exact Hpage].
Defined.

Lemma history_step_sent (w w' : History.Running) (e : History.Event) :
  History.step w e = Some w' ->
  History.sent w' = History.sent w
  \/ History.sent w'
     = (History.sent w
        ++ [historyApi.list (Some (History.page (History.view w'))) (Some (Fin 10)) None])%list.
Proof.
  assert (Hturn : forall q,
             History.sent (History.turn q w) = History.sent w
             \/ History.sent (History.turn q w)
                = (History.sent w
                   ++ [historyApi.list (Some (History.page (History.view (History.turn q w))))
                                       (Some (Fin 10)) None])%list).
  { intros q. unfold History.turn.
    destruct (strict_eq q (History.page (History.view w))); [now left | now right]. }
  destruct e; cbn [History.step]; intros H.
  - injection H as <-. now right.
  - destruct (History.awaiting w); [discriminate|]. injection H as <-. now left.
  - destruct (History.pagination (History.view w)) as [bar|]; [|discriminate].
    destruct (History.previous_disabled bar); [discriminate|].
    injection H as <-. apply Hturn.
  - destruct (History.pagination (History.view w)) as [bar|]; [|discriminate].
    destruct (History.next_disabled bar); [discriminate|].
    injection H as <-. apply Hturn.
Qed.

(** X17.  Every listing request the history view sends asks for a page
    that is a whole number at least 1, written in decimal, with page_size
    10: the view never asks for page 0, a negative page, NaN or
    Infinity, whatever totals and page sizes the server reports. *)
Lemma X17_requested_pages (w : History.Running) (req : Request) :
  History.reachable w ->
  In req (History.sent w) ->
  exists p, 1 <= p /\
            req = mkRequest GET "/api/history"
                            [("page", Z_toString p); ("page_size", "10")]
                            [] "application/json" None.
Proof.
  intros Hw. revert req.
  induction Hw as [|w e w' Hw IH Hstep]; intros req Hin.
  - destruct Hin as [<-|[]]. exists 1. split; [lia | reflexivity].
  - destruct (history_step_sent w w' e Hstep) as [Hs|Hs]; rewrite Hs in Hin.
    + now apply IH.
    + apply in_app_or in Hin as [Hin|[<-|[]]]; [now apply IH|].
      destruct (page_positive w' (History.reach_step w e w' Hw Hstep)) as [p [Hp Hge]].
      exists p. split; [exact Hge|]. now rewrite Hp.
Qed.

Lemma X17_requested_pages_witness :
  exists p, 1 <= p /\
            historyApi.list (Some (Fin 2)) (Some (Fin 10)) None
            = mkRequest GET "/api/history"
                        [("page", Z_toString p); ("page_size", "10")]
                        [] "application/json" None.
Proof.
  apply (X17_requested_pages
           (match History.run History.mount browsing_trace with
            | Some w => w
            | None => History.mount
            end)).
  - apply (run_reachable browsing_trace History.mount);
      [apply History.reach_mount | reflexivity].
  - cbn. auto.
Defined.

Lemma loading_clears_error (w : History.Running) :
  History.reachable w ->
  History.isLoading (History.view w) = true ->
  History.error (History.view w) = None.
Proof.
  induction 1 as [|w e w' Hw IH Hstep]; [reflexivity|].
  destruct e; cbn [History.step] in Hstep.
  - injection Hstep as <-. reflexivity.
  - destruct (History.awaiting w); [discriminate|]. injection Hstep as <-.
    destruct out; cbn; discriminate.
  - destruct (History.pagination (History.view w)) as [bar|]; [|discriminate].
    destruct (History.previous_disabled bar); [discriminate|].
    injection Hstep as <-. unfold History.turn.
    destruct (strict_eq _ _); [exact IH | reflexivity].
  - destruct (History.pagination (History.view w)) as [bar|]; [|discriminate].
    destruct (History.next_disabled bar); [discriminate|].
    injection Hstep as <-. unfold History.turn.
    destruct (strict_eq _ _); [exact IH | reflexivity].
Qed.

(** X18.  In every state the history view reaches, the four parts of its
    body exclude each other: while "Loading..." is shown there is no error
    line, no empty-state and no rows; while an error line is shown there
    is no "Loading...", no empty-state and no rows; and the empty-state
    and the rows are never shown together. *)
Lemma X18_body_parts_exclusive (w : History.Running) :
  History.reachable w ->
  let r := HistoryView.render (History.view w) in
  (HistoryView.loading_row r = true ->
   HistoryView.error_row r = None /\ HistoryView.empty_state r = false
   /\ HistoryView.rows r = []) /\
  (HistoryView.error_row r <> None ->
   HistoryView.loading_row r = false /\ HistoryView.empty_state r = false
   /\ HistoryView.rows r = []) /\
  (HistoryView.empty_state r = true -> HistoryView.rows r = []) /\
  (HistoryView.rows r <> [] ->
   HistoryView.loading_row r = false /\ HistoryView.error_row r = None).
Proof.
  intros Hw. pose proof (loading_clears_error w Hw) as Hinv.
  unfold HistoryView.render. cbn.
  destruct (History.isLoading (History.view w)).
  - rewrite (Hinv eq_refl). cbn. repeat split; try discriminate; try contradiction.
  - destruct (truthy (History.error (History.view w))) eqn:E; cbn.
    + repeat split; try discriminate; try contradiction.
    + repeat split; try discriminate; try contradiction.
      destruct (History.history (History.view w)) as [h|]; [|reflexivity].
      destruct (HistoryListResponse.items h); [reflexivity | discriminate].
Qed.

Lemma X18_body_parts_exclusive_witness :
  HistoryView.rows
    (HistoryView.render
       (History.view (match History.run History.mount browsing_trace with
                      | Some w => w
                      | None => History.mount
                      end))) = [].
Proof.
  apply (proj1 (X18_body_parts_exclusive _
                  (run_reachable browsing_trace History.mount _
                                 History.reach_mount eq_refl))).
  reflexivity.
Defined.

(** X19.  An answer to a listing request never touches the page.  A
    listing that arrives replaces the one held but does not clear an error
    left by another request: the rows stay hidden behind it until the next
    fetch starts.  A failed request keeps the listing held, and with it
    the number of pages and the pagination bar, and only sets the error
    "Failed to load history". *)
Lemma X19_answers (w w' : History.Running) (out : Settled HistoryListResponse.t) :
  History.step w (History.Loaded out) = Some w' ->
  History.page (History.view w') = History.page (History.view w) /\
  History.isLoading (History.view w') = false /\
  match out with
  | Fulfilled data =>
      History.history (History.view w') = Some data /\
      History.error (History.view w') = History.error (History.view w) /\
      (truthy (History.error (History.view w)) = true ->
       HistoryView.rows (HistoryView.render (History.view w')) = [] /\
       HistoryView.error_row (HistoryView.render (History.view w'))
       = History.error (History.view w))
  | Rejected _ =>
      History.history (History.view w') = History.history (History.view w) /\
      History.totalPages (History.view w') = History.totalPages (History.view w) /\
      History.pagination (History.view w') = History.pagination (History.view w) /\
      History.error (History.view w') = Some "Failed to load history" /\
      HistoryView.rows (HistoryView.render (History.view w')) = []
  end.
Proof.
  cbn [History.step]. destruct (History.awaiting w); [discriminate|].
  intros H. injection H as <-.
  destruct out as [data|err]; cbn [History.view History.fetchHistory_then];
    (split; [reflexivity|]); (split; [reflexivity|]).
  - split; [reflexivity|]. split; [reflexivity|].
    intros Herr. unfold HistoryView.render. cbn. rewrite Herr. cbn. split; reflexivity.
  - repeat split.
Qed.

Lemma X19_answers_witness :
  option_map (fun w => (History.history (History.view w),
                        HistoryView.rows (HistoryView.render (History.view w)),
                        HistoryView.error_row (HistoryView.render (History.view w))))
             (History.run History.mount stale_error_trace)
  = Some (Some (Server.history_list sample_jobs 1 10), [], Some "Failed to load history").
Proof.
  destruct (X19_answers
              (History.mkRunning
                 (History.mk None false (Some "Failed to load history") (Fin 1)) 1
                 [historyApi.list (Some (Fin 1)) (Some (Fin 10)) None;
                  historyApi.list (Some (Fin 1)) (Some (Fin 10)) None])
              _ (Fulfilled (Server.history_list sample_jobs 1 10)) eq_refl)
    as [_ [_ [Hh [_ Hrows]]]].
  destruct (Hrows eq_refl) as [Hr He].
  cbn [History.run stale_error_trace option_map].
  exact (f_equal2 (fun a b => Some (Some (Server.history_list sample_jobs 1 10), a, b)) Hr He).
Defined.

(** X20.  With a positive page_size in the listing held, the pagination
    bar is shown exactly when total exceeds page_size, that is when the
    listing does not fit on one page; before any listing was fetched it is
    not shown. *)
Lemma X20_bar_shown (s : History.State) :
  (History.history s = None -> History.pagination s = None) /\
  (forall h,
      History.history s = Some h ->
      0 < HistoryListResponse.page_size h ->
      (History.pagination s <> None
       <-> HistoryListResponse.page_size h < HistoryListResponse.total h)).
Proof.
  split.
  - intros Hn. unfold History.pagination, History.totalPages. now rewrite Hn.
  - intros h Hh Hps. unfold History.pagination, History.totalPages. rewrite Hh.
    unfold Math_ceil_div.
    replace (HistoryListResponse.page_size h =? 0) with false
      by (symmetry; apply Z.eqb_neq; lia).
    cbn [gt].
    pose proof (ceil_div_spec (HistoryListResponse.total h)
                              (HistoryListResponse.page_size h) Hps) as Hc.
    destruct (1 <? ceil_div (HistoryListResponse.total h) (HistoryListResponse.page_size h))
      eqn:E.
    + apply Z.ltb_lt in E. split; [intros _; nia | discriminate].
    + apply Z.ltb_ge in E. split; [intros H; now elim H | intros H; nia].
Qed.

Lemma X20_bar_shown_witness :
  History.pagination
    (History.mk (Some (Server.history_list (firstn 11 sample_jobs) 1 10)) false None (Fin 1))
  <> None.
Proof.
  apply (proj2 (X20_bar_shown
                  (History.mk (Some (Server.history_list (firstn 11 sample_jobs) 1 10))
                              false None (Fin 1)))
               (Server.history_list (firstn 11 sample_jobs) 1 10) eq_refl);
    cbn; lia.
Defined.

(* ================================================================== *)
(** * A further property of the declarations *)
(* ================================================================== *)

(** A member of a conforming object that is present conforms to its
    declared type, optional or not. *)
Lemma conforms_member_present (fields : list (Field TsType)) (j v : Json) (f : Field TsType) :
  conforms (TObject fields) j = true ->
  In f fields ->
  member (fname f) j = Some v ->
  conforms (ftype f) v = true.
Proof.
  intros Hc Hin Hv.
  destruct (conforms_object_inv _ _ Hc) as [members ->].
  rewrite conforms_object in Hc. rewrite forallb_forall in Hc. specialize (Hc f Hin).
  cbn [member] in Hv. now rewrite Hv in Hc.
Qed.

(** X21.  Optional and nullable are different things in the declarations:
    the page member of an OCR block may be left out but, when present, is
    a number and never null; the markdown member of an OCR result may be
    null but is never left out. *)
Lemma X21_optional_is_not_nullable :
  (forall j, conforms Schema.OCRBlock j = true ->
             member "page" j = None \/ exists n, member "page" j = Some (JNum n)) /\
  (forall b : OCRBlock.t,
      OCRBlock.page b = None ->
      conforms Schema.OCRBlock (json_of_OCRBlock b) = true /\
      member "page" (json_of_OCRBlock b) = None) /\
  (forall j, conforms Schema.OCRResult j = true ->
             member "markdown" j = Some JNull \/ exists m, member "markdown" j = Some (JStr m)) /\
  (forall text blocks,
      conforms Schema.OCRResult (JObj [("text", JStr text); ("blocks", JArr blocks)]) = false).
Proof.
  split; [|split; [|split]].
  - intros j Hc. destruct (member "page" j) as [v|] eqn:Hv; [right | now left].
    assert (Hf : In (optionally "page" TNumber) (fields_of Schema.OCRBlock))
      by (cbn; auto).
    pose proof (conforms_member_present _ _ _ _ Hc Hf Hv) as Hn.
    destruct v; cbn in Hn; try discriminate. now eexists.
  - intros b Hp. split; [apply json_of_OCRBlock_conforms|].
    destruct b as [t c bb pg]. cbn in Hp. subst pg. reflexivity.
  - intros j Hc.
    assert (Hf : In (required "markdown" (nullable TString)) (fields_of Schema.OCRResult))
      by (cbn; auto).
    destruct (conforms_member _ _ _ Hc Hf eq_refl) as [v [Hv Hs]].
    cbn [fname required] in Hv. rewrite Hv.
    apply conforms_nullable in Hs as [-> | Hs]; [now left|].
    apply conforms_string in Hs as [m ->]. right. now exists m.
  - intros text blocks. unfold Schema.OCRResult. rewrite conforms_object.
    cbn -[conforms]. now rewrite !andb_false_r.
Qed.

Lemma X21_optional_is_not_nullable_witness :
  member "markdown" (json_of_OCRResult (Server.aggregate sample_pages)) = Some JNull
  \/ exists m, member "markdown" (json_of_OCRResult (Server.aggregate sample_pages))
               = Some (JStr m).
Proof.
  apply (proj1 (proj2 (proj2 X21_optional_is_not_nullable))). reflexivity.
Defined.
